(** * vidjson: the Veo3 prompt builders

    A shallow embedding of the prompt-assembly and suggestion code of the
    three Python programs of the repository,

    - [simple_veo3_builder.py]  (command-line builder),
    - [demo_veo3_builder.py]    (scripted demonstration),
    - [veo3_prompt_builder.py]  (Streamlit dashboard),

    followed by the properties of the specification, each settled on the
    embedding.

    Modelling conventions.
    - A Python [str] is a [string]; a character is a code point below 256,
      which covers every literal the programs compare against.
    - A Python [dict] with string keys is a [gmap string _]; the insertion
      order of the keys, visible only in the layout of [json.dumps], is not
      modelled.
    - A [float] is a rational, an infinity or NaN; only order comparisons
      with integer constants are performed on it, and those are exact.
    - [print] calls write to the terminal only and are left out; [input]
      reads the next line of an explicit standard-input stream.
    - [json.loads] and [float] on a string belong to the Python library and
      are parameters of the functions that call them. *)

From Stdlib Require Import ZArith QArith Lqa Ascii.
From stdpp Require Import gmap strings list fin_maps.

Local Open Scope Z_scope.

(** ** Python built-ins used by the programs *)

Module Py.

(** [bool(s)]: a string is true exactly when it is not empty. *)
Definition truthy (s : string) : bool :=
  match s with
  | EmptyString => false
  | String _ _ => true
  end.

(** [c.isspace()] on code points below 256: U+0009..U+000D,
    U+001C..U+0020, U+0085 and U+00A0. *)
Definition isspace (c : ascii) : bool :=
  let n := nat_of_ascii c in
  ((9 <=? n) && (n <=? 13) || (28 <=? n) && (n <=? 32)
   || (n =? 133) || (n =? 160))%nat.

(** [s.split()]: the maximal runs of non-whitespace characters, in order.
    [cur] is the run being scanned. *)
Fixpoint split_go (cur : string) (s : string) : list string :=
  match s with
  | EmptyString => if truthy cur then [cur] else []
  | String c s' =>
      if isspace c
      then (if truthy cur then cur :: split_go "" s' else split_go "" s')
      else split_go (cur +:+ String c "") s'
  end.

Definition split (s : string) : list string := split_go "" s.

(** [sep.join(l)] *)
Fixpoint join (sep : string) (l : list string) : string :=
  match l with
  | [] => ""
  | [x] => x
  | x :: l' => x +:+ sep +:+ join sep l'
  end.

(** [s.startswith(p)] *)
Fixpoint startswith (p s : string) : bool :=
  match p, s with
  | EmptyString, _ => true
  | String a p', String b s' => if decide (a = b) then startswith p' s' else false
  | String _ _, EmptyString => false
  end.

(** [s.replace(old, new)] for a non-empty [old]: matches are taken left to
    right and do not overlap; [skip] counts the characters of the current
    match still to be dropped. *)
Fixpoint replace_go (old new : string) (skip : nat) (s : string) : string :=
  match s with
  | EmptyString => ""
  | String c s' =>
      match skip with
      | S k => replace_go old new k s'
      | O =>
          if startswith old s
          then new +:+ replace_go old new (String.length old - 1) s'
          else String c (replace_go old new O s')
      end
  end.

(** With an empty [old], [new] is inserted before every character and at
    the end. *)
Fixpoint intersperse (new : string) (s : string) : string :=
  match s with
  | EmptyString => new
  | String c s' => new +:+ String c (intersperse new s')
  end.

Definition replace (old new s : string) : string :=
  if truthy old then replace_go old new O s else intersperse new s.

(** [c.lower()] on code points below 256: the letters A..Z and the
    Latin-1 capitals U+00C0..U+00DE other than the multiplication sign. *)
Definition lower_char (c : ascii) : ascii :=
  let n := nat_of_ascii c in
  if ((65 <=? n) && (n <=? 90)
      || (192 <=? n) && (n <=? 222) && negb (n =? 215))%nat
  then ascii_of_nat (n + 32) else c.

Fixpoint lower (s : string) : string :=
  match s with
  | EmptyString => ""
  | String c s' => String (lower_char c) (lower s')
  end.

(** Position of the first occurrence of [sub] in [s]. *)
Fixpoint index_of (sub s : string) : option nat :=
  if startswith sub s then Some O
  else match s with
       | EmptyString => None
       | String _ s' => S <$> index_of sub s'
       end.

Fixpoint drop_chars (n : nat) (s : string) : string :=
  match n, s with
  | O, _ => s
  | S _, EmptyString => ""
  | S k, String _ s' => drop_chars k s'
  end.

Fixpoint take_chars (n : nat) (s : string) : string :=
  match n, s with
  | O, _ => ""
  | S _, EmptyString => ""
  | S k, String c s' => String c (take_chars k s')
  end.

(** [sub in s] *)
Definition contains (sub s : string) : bool :=
  match index_of sub s with Some _ => true | None => false end.

(** [s.find(sub, start)] for [0 <= start]: the lowest index at or after
    [start] where [sub] occurs, or [-1]. *)
Definition find (sub s : string) (start : Z) : Z :=
  if Z.of_nat (String.length s) <? start then -1
  else match index_of sub (drop_chars (Z.to_nat start) s) with
       | Some i => start + Z.of_nat i
       | None => -1
       end.

(** [s[lo:hi]] for [0 <= lo] and [0 <= hi]. *)
Definition slice (s : string) (lo hi : Z) : string :=
  take_chars (Z.to_nat (hi - lo)) (drop_chars (Z.to_nat lo) s).

Fixpoint lstrip (s : string) : string :=
  match s with
  | EmptyString => ""
  | String c s' => if isspace c then lstrip s' else s
  end.

(** [s.strip()] *)
Definition strip (s : string) : string :=
  String.rev (lstrip (String.rev (lstrip s))).

(** The values [json.loads] produces and [json.dumps] accepts. A float is
    kept as the text of its literal; an object as its key/value pairs in
    source order. *)
#[local] Unset Elimination Schemes.
Inductive value :=
| VNone
| VBool (b : bool)
| VInt (n : Z)
| VFloat (literal : string)
| VStr (s : string)
| VList (l : list value)
| VDict (kvs : list (string * value)).
#[local] Set Elimination Schemes.

(** A dict display [{k1: v1, ...}]: the pairs are stored in order, so a
    repeated key keeps its last value. *)
Definition dict `{Countable K} {V} (kvs : list (K * V)) : gmap K V :=
  foldl (fun m kv => <[kv.1 := kv.2]> m) ∅ kvs.

(** [d.get(k, default)] *)
Definition get `{Countable K} {V} (d : gmap K V) (k : K) (dflt : V) : V :=
  default dflt (d !! k).

(** [d.update(other)] for a dict [other] with the items [kvs]: [d[k] = v]
    for each pair in order. *)
Definition update `{Countable K} {V} (d : gmap K V) (kvs : list (K * V))
  : gmap K V :=
  foldl (fun m kv => <[kv.1 := kv.2]> m) d kvs.

(** [float] as far as the programs use it. *)
Inductive float :=
| Finite (q : Q)
| PosInf
| NegInf
| NaN.

(** [x < n] for a float [x] and an integer constant [n]. *)
Definition float_lt (x : float) (n : Z) : bool :=
  match x with
  | Finite q => negb (Qle_bool (inject_Z n) q)
  | NegInf => true
  | PosInf | NaN => false
  end.

(** [n <= x] *)
Definition float_ge (x : float) (n : Z) : bool :=
  match x with
  | Finite q => Qle_bool (inject_Z n) q
  | PosInf => true
  | NegInf | NaN => false
  end.

(** [x <= n] *)
Definition float_le (x : float) (n : Z) : bool :=
  match x with
  | Finite q => Qle_bool q (inject_Z n)
  | NegInf => true
  | PosInf | NaN => false
  end.

(** [x > n] *)
Definition float_gt (x : float) (n : Z) : bool :=
  match x with
  | Finite q => negb (Qle_bool q (inject_Z n))
  | PosInf => true
  | NegInf | NaN => false
  end.

(** [c in s] for a character [c]. *)
Fixpoint has_char (c : ascii) (s : string) : bool :=
  match s with
  | EmptyString => false
  | String a s' => if decide (c = a) then true else has_char c s'
  end.

End Py.

(** ** [simple_veo3_builder.py] *)

Module simple_veo3_builder.
Import Py.

Record PromptComponents := {
  subject : string;
  action : string;
  scene : string;
  style : string;
  camera : string;
  composition : string;
  ambiance : string;
  audio : string
}.

Record SceneConfig := {
  camera_fov : float;
  camera_height : float;
  camera_distance : float;
  camera_angle : string;
  shot_type : string;
  lighting_intensity : float;
  lighting_type : string;
  time_of_day : string;
  weather : string
}.

(** The instance attributes [self.components], [self.scene] and
    [self.current_prompt]. *)
Record Veo3PromptBuilder := {
  self_components : PromptComponents;
  self_scene : SceneConfig;
  self_current_prompt : gmap string value
}.

(** [PromptComponents()] *)
Definition PromptComponents_default : PromptComponents := {|
  subject := ""; action := ""; scene := "";
  style := "cinematic, photorealistic";
  camera := ""; composition := ""; ambiance := ""; audio := ""
|}.

(** [SceneConfig()] *)
Definition SceneConfig_default : SceneConfig := {|
  camera_fov := Finite 50; camera_height := Finite 5;
  camera_distance := Finite 10; camera_angle := "eye-level";
  shot_type := "medium"; lighting_intensity := Finite 1;
  lighting_type := "natural"; time_of_day := "day"; weather := "clear"
|}.

(** [__init__] *)
Definition init : Veo3PromptBuilder := {|
  self_components := PromptComponents_default;
  self_scene := SceneConfig_default;
  self_current_prompt :=
    dict [("prompt", VStr ""); ("caption", VStr "");
          ("file_name", VStr "video.mp4");
          ("input_image_urls", VList []); ("input_ids", VList [])]
|}.

(** [setattr(components, name, v)] for the eight attribute names; any
    other name leaves the eight fields as they are. *)
Definition setattr (name : string) (v : string) (c : PromptComponents)
  : PromptComponents := {|
  subject := if decide (name = "subject") then v else subject c;
  action := if decide (name = "action") then v else action c;
  scene := if decide (name = "scene") then v else scene c;
  style := if decide (name = "style") then v else style c;
  camera := if decide (name = "camera") then v else camera c;
  composition := if decide (name = "composition") then v else composition c;
  ambiance := if decide (name = "ambiance") then v else ambiance c;
  audio := if decide (name = "audio") then v else audio c
|}.

Definition with_components (c : PromptComponents) (b : Veo3PromptBuilder)
  : Veo3PromptBuilder := {|
  self_components := c;
  self_scene := self_scene b;
  self_current_prompt := self_current_prompt b
|}.

Definition with_scene (s : SceneConfig) (b : Veo3PromptBuilder)
  : Veo3PromptBuilder := {|
  self_components := self_components b;
  self_scene := s;
  self_current_prompt := self_current_prompt b
|}.

Definition with_current_prompt (d : gmap string value) (b : Veo3PromptBuilder)
  : Veo3PromptBuilder := {|
  self_components := self_components b;
  self_scene := self_scene b;
  self_current_prompt := d
|}.

(** [display_lens_guide]: the lens type and the effect it prints. *)
Definition display_lens_guide (fov : float) : string * string :=
  if float_lt fov 25 then
    ("Super Telephoto (200mm+)", "Strong compression, isolated subjects")
  else if float_lt fov 35 then
    ("Telephoto (85-135mm)", "Portrait lens, natural compression")
  else if float_lt fov 55 then
    ("Standard (35-50mm)", "Natural perspective, human-like vision")
  else if float_lt fov 75 then
    ("Wide Angle (24-35mm)", "Expanded view, some distortion")
  else
    ("Ultra Wide (14-24mm)", "Dramatic perspective, high distortion").

(** *** Methods that read the terminal

    The state is the builder together with the lines still to be read from
    standard input; [input] raises [EOFError] when none is left. *)

Inductive exn := EOFError.

Inductive result (A : Type) :=
| Ok (a : A)
| Raise (e : exn).
Arguments Ok {A} a.
Arguments Raise {A} e.

Record World := {
  self : Veo3PromptBuilder;
  stdin : list string
}.

Definition M (A : Type) : Type := World -> result A * World.

#[global] Instance M_ret : MRet M := fun A a w => (Ok a, w).

#[global] Instance M_bind : MBind M := fun A B f m w =>
  match m w with
  | (Ok a, w') => f a w'
  | (Raise e, w') => (Raise e, w')
  end.

Definition input : M string := fun w =>
  match stdin w with
  | [] => (Raise EOFError, w)
  | line :: rest => (Ok line, {| self := self w; stdin := rest |})
  end.

Definition get_self : M Veo3PromptBuilder := fun w => (Ok (self w), w).

Definition modify_components (f : PromptComponents -> PromptComponents)
  : M unit := fun w =>
  (Ok tt, {| self := with_components (f (self_components (self w))) (self w);
             stdin := stdin w |}).

Definition camera_suggestions : gmap string string :=
  dict [("wide", "Static wide shot establishing the environment");
        ("medium", "Slow dolly forward for character focus");
        ("close-up", "Handheld close-up for intimacy");
        ("extreme close-up", "Macro lens extreme close-up revealing details")].

Definition ambiance_map : gmap (string * string) string :=
  dict [(("natural", "day"), "Bright natural sunlight with soft shadows");
        (("natural", "dawn"), "Golden hour lighting with warm orange tones");
        (("natural", "dusk"), "Blue hour with deep purple and orange sky");
        (("natural", "night"), "Moonlight with cool blue tones and deep shadows");
        (("dramatic", "day"), "High contrast lighting with sharp shadows");
        (("dramatic", "night"),
          "Chiaroscuro lighting with stark black and white contrast");
        (("soft", "day"), "Diffused overcast light with gentle shadows");
        (("backlit", "day"),
          "Strong backlighting creating silhouettes and rim light")].

(** The camera suggestion computed in [suggest_from_scene]. *)
Definition camera_suggestion (s : SceneConfig) : string :=
  get camera_suggestions (shot_type s) "Static shot".

(** The ambiance suggestion computed in [suggest_from_scene]. *)
Definition ambiance_suggestion (s : SceneConfig) : string :=
  let key := (lighting_type s, time_of_day s) in
  get ambiance_map key
      (lighting_type s +:+ " " +:+ time_of_day s +:+ " lighting").

Definition suggest_from_scene : M unit :=
  b ← get_self;
  (if negb (truthy (camera (self_components b))) then
     let suggestion := camera_suggestion (self_scene b) in
     answer ← input;
     if decide (lower answer = "y")
     then modify_components (setattr "camera" suggestion)
     else mret tt
   else mret tt);;
  b ← get_self;
  if negb (truthy (ambiance (self_components b))) then
    let suggestion := ambiance_suggestion (self_scene b) in
    answer ← input;
    if decide (lower answer = "y")
    then modify_components (setattr "ambiance" suggestion)
    else mret tt
  else mret tt.

(** The keys of [components_info], in order. *)
Definition components_info : list string :=
  ["subject"; "action"; "scene"; "camera"; "composition"; "ambiance";
   "audio"; "style"].

Fixpoint for_each (names : list string) (body : string -> M unit) : M unit :=
  match names with
  | [] => mret tt
  | n :: rest => body n;; for_each rest body
  end.

Definition build_prompt_components : M unit :=
  for_each components_info (fun component =>
    line ← input;
    let new_value := strip line in
    if truthy new_value
    then modify_components (setattr component new_value)
    else mret tt);;
  suggest_from_scene.

(** The eight entries of the list [components] of [build_final_prompt],
    before the empty ones are filtered out. *)
Definition segments (b : Veo3PromptBuilder) : list string :=
  let c := self_components b in
  let s := self_scene b in
  [ if truthy (subject c) then "Subject: " +:+ subject c else "";
    if truthy (action c) then "Action: " +:+ action c else "";
    if truthy (scene c) then "Scene: " +:+ scene c else "";
    if truthy (camera c) then "Camera: " +:+ camera c else "";
    if truthy (shot_type s)
    then "Composition: " +:+ shot_type s +:+ " shot, " +:+ camera_angle s
    else "";
    if truthy (ambiance c) then "Ambiance: " +:+ ambiance c else "";
    if truthy (audio c) then "Audio: " +:+ audio c else "";
    if truthy (style c) then "Style: " +:+ style c else "" ].

Definition build_final_prompt (b : Veo3PromptBuilder) : Veo3PromptBuilder :=
  let c := self_components b in
  let s := self_scene b in
  let components := List.filter truthy (segments b) in
  let d := <["prompt" := VStr (join ". " components)]> (self_current_prompt b) in
  let d :=
    if truthy (subject c) && truthy (action c) then
      let words := take 8 (split (subject c +:+ " " +:+ action c)) in
      <["caption" := VStr (join " " words)]> d
    else d in
  let scene_type := replace " " "" (replace "-" "" (shot_type s)) in
  let time_suffix := time_of_day s in
  let d := <["file_name" := VStr (scene_type +:+ "-" +:+ time_suffix +:+ ".mp4")]> d in
  with_current_prompt d b.

(** [build_final_prompt] as a step of [run]. *)
Definition build_final_prompt_M : M unit := fun w =>
  (Ok tt, {| self := build_final_prompt (self w); stdin := stdin w |}).

(** The two middle steps of [run]: the components are prompted for, then
    the prompt is built. *)
Definition prompt_then_build : M unit :=
  build_prompt_components;; build_final_prompt_M.

(** *** [configure_scene]

    [float(...)] belongs to the Python library: it is a parameter
    [float_of_str], [None] standing for [ValueError]. *)

Definition with_camera_fov (v : float) (s : SceneConfig) : SceneConfig := {|
  camera_fov := v; camera_height := camera_height s;
  camera_distance := camera_distance s; camera_angle := camera_angle s;
  shot_type := shot_type s; lighting_intensity := lighting_intensity s;
  lighting_type := lighting_type s; time_of_day := time_of_day s;
  weather := weather s
|}.

Definition with_position (height distance : float) (s : SceneConfig)
  : SceneConfig := {|
  camera_fov := camera_fov s; camera_height := height;
  camera_distance := distance; camera_angle := camera_angle s;
  shot_type := shot_type s; lighting_intensity := lighting_intensity s;
  lighting_type := lighting_type s; time_of_day := time_of_day s;
  weather := weather s
|}.

Definition with_camera_angle (v : string) (s : SceneConfig) : SceneConfig := {|
  camera_fov := camera_fov s; camera_height := camera_height s;
  camera_distance := camera_distance s; camera_angle := v;
  shot_type := shot_type s; lighting_intensity := lighting_intensity s;
  lighting_type := lighting_type s; time_of_day := time_of_day s;
  weather := weather s
|}.

Definition with_shot_type (v : string) (s : SceneConfig) : SceneConfig := {|
  camera_fov := camera_fov s; camera_height := camera_height s;
  camera_distance := camera_distance s; camera_angle := camera_angle s;
  shot_type := v; lighting_intensity := lighting_intensity s;
  lighting_type := lighting_type s; time_of_day := time_of_day s;
  weather := weather s
|}.

Definition with_lighting_type (v : string) (s : SceneConfig) : SceneConfig := {|
  camera_fov := camera_fov s; camera_height := camera_height s;
  camera_distance := camera_distance s; camera_angle := camera_angle s;
  shot_type := shot_type s; lighting_intensity := lighting_intensity s;
  lighting_type := v; time_of_day := time_of_day s;
  weather := weather s
|}.

Definition with_time_of_day (v : string) (s : SceneConfig) : SceneConfig := {|
  camera_fov := camera_fov s; camera_height := camera_height s;
  camera_distance := camera_distance s; camera_angle := camera_angle s;
  shot_type := shot_type s; lighting_intensity := lighting_intensity s;
  lighting_type := lighting_type s; time_of_day := v;
  weather := weather s
|}.

Definition with_weather (v : string) (s : SceneConfig) : SceneConfig := {|
  camera_fov := camera_fov s; camera_height := camera_height s;
  camera_distance := camera_distance s; camera_angle := camera_angle s;
  shot_type := shot_type s; lighting_intensity := lighting_intensity s;
  lighting_type := lighting_type s; time_of_day := time_of_day s;
  weather := v
|}.

Definition modify_scene (f : SceneConfig -> SceneConfig) : M unit := fun w =>
  (Ok tt, {| self := with_scene (f (self_scene (self w))) (self w);
             stdin := stdin w |}).

Definition shots : gmap string string :=
  dict [("1", "wide"); ("2", "medium"); ("3", "close-up");
        ("4", "extreme close-up")].

Definition angles : gmap string string :=
  dict [("1", "eye-level"); ("2", "low angle"); ("3", "high angle");
        ("4", "bird's eye"); ("5", "dutch angle")].

Definition lights : gmap string string :=
  dict [("1", "natural"); ("2", "dramatic"); ("3", "soft"); ("4", "backlit")].

Definition times : gmap string string :=
  dict [("1", "dawn"); ("2", "day"); ("3", "dusk"); ("4", "night")].

Definition weathers : gmap string string :=
  dict [("1", "clear"); ("2", "cloudy"); ("3", "rainy"); ("4", "foggy");
        ("5", "snowy")].

(** [sel = input(...).strip()], then [if sel in options: field = options[sel]]. *)
Definition select (options : gmap string string)
    (set : string -> SceneConfig -> SceneConfig) : M unit :=
  line ← input;
  match options !! strip line with
  | Some v => modify_scene (set v)
  | None => mret tt
  end.

(** One turn of the [while True] loop of [configure_scene]; [false] is its
    [break]. *)
Definition configure_turn (float_of_str : string -> option float) : M bool :=
  line ← input;
  let choice := strip line in
  if decide (choice = "1") then
    text ← input;
    match float_of_str text with
    | Some fov =>
        if float_ge fov 20 && float_le fov 120
        then modify_scene (with_camera_fov fov);; mret true
        else mret true
    | None => mret true
    end
  else if decide (choice = "2") then select shots with_shot_type;; mret true
  else if decide (choice = "3") then select angles with_camera_angle;; mret true
  else if decide (choice = "4") then
    text ← input;
    match float_of_str text with
    | Some height =>
        text' ← input;
        match float_of_str text' with
        | Some distance =>
            if float_ge height 0 && float_gt distance 0
            then modify_scene (with_position height distance);; mret true
            else mret true
        | None => mret true
        end
    | None => mret true
    end
  else if decide (choice = "5") then select lights with_lighting_type;; mret true
  else if decide (choice = "6") then select times with_time_of_day;; mret true
  else if decide (choice = "7") then select weathers with_weather;; mret true
  else if decide (choice = "8") then mret false
  else mret true.

(** The loop, for at most [turns] turns: [None] when the loop is still
    running after them. *)
Fixpoint configure_scene_turns (float_of_str : string -> option float)
    (turns : nat) (w : World) : option (result unit * World) :=
  match turns with
  | O => None
  | S k =>
      match configure_turn float_of_str w with
      | (Ok true, w') => configure_scene_turns float_of_str k w'
      | (Ok false, w') => Some (Ok tt, w')
      | (Raise e, w') => Some (Raise e, w')
      end
  end.

(** Every turn reads a line, so one turn more than there are lines runs the
    loop to its end. *)
Definition configure_scene (float_of_str : string -> option float) : M unit :=
  fun w =>
    default (Raise EOFError, w)
      (configure_scene_turns float_of_str (S (length (stdin w))) w).

(** How [run] ends: it returns, or it leaves through [sys.exit(1)] on an
    exception. [display_final_output], which prints the document and writes
    it to [veo3_prompt.json], is not modelled. *)
Inductive ending :=
| Returned
| Exited (status : Z).

Definition run (float_of_str : string -> option float) (w : World)
  : ending * World :=
  match (configure_scene float_of_str;; build_prompt_components;;
         build_final_prompt_M) w with
  | (Ok _, w') => (Returned, w')
  | (Raise _, w') => (Exited 1, w')
  end.

End simple_veo3_builder.

(** ** [demo_veo3_builder.py] *)

Module demo_veo3_builder.
Import Py.

Record SceneConfig := {
  camera_fov : float;
  shot_type : string;
  camera_angle : string;
  lighting_type : string;
  time_of_day : string;
  weather : string
}.

Record PromptComponents := {
  subject : string;
  action : string;
  scene : string;
  camera : string;
  composition : string;
  ambiance : string;
  audio : string;
  style : string
}.

Definition mood_combinations : gmap (string * string * string) string :=
  dict [(("dramatic", "dusk", "rainy"),
          "Intense, moody atmosphere with high contrast shadows and reflective surfaces");
        (("natural", "day", "clear"), "Bright, clean aesthetic with even lighting");
        (("soft", "dawn", "foggy"), "Ethereal, dreamlike quality with diffused light")].

(** [analyze_scene_setup]: the lens type, the effect and the mood it
    prints. *)
Definition analyze_scene_setup (scene : SceneConfig) : string * string * string :=
  let fov := camera_fov scene in
  let '(lens_type, effect) :=
    if float_lt fov 25 then
      ("Super Telephoto (200mm+)", "Strong compression, isolated subjects")
    else if float_lt fov 35 then
      ("Telephoto (85-135mm)", "Portrait lens, natural compression")
    else if float_lt fov 55 then
      ("Standard (35-50mm)", "Natural perspective, human-like vision")
    else if float_lt fov 75 then
      ("Wide Angle (24-35mm)", "Expanded view, some distortion")
    else
      ("Ultra Wide (14-24mm)", "Dramatic perspective, high distortion") in
  let key := (lighting_type scene, time_of_day scene, weather scene) in
  let mood :=
    get mood_combinations key
        (lighting_type scene +:+ " " +:+ time_of_day scene +:+ " mood") in
  (lens_type, effect, mood).

Definition build_veo3_json (scene : SceneConfig) (components : PromptComponents)
  : gmap string value :=
  let prompt_parts :=
    [ "Subject: " +:+ subject components;
      "Action: " +:+ action components;
      "Scene: " +:+ demo_veo3_builder.scene components;
      "Camera: " +:+ camera components;
      "Composition: " +:+ composition components;
      "Ambiance: " +:+ ambiance components;
      "Audio: " +:+ audio components;
      "Style: " +:+ style components ] in
  let full_prompt := join ". " prompt_parts in
  let words :=
    take 8 (split (replace "Action: " "" (replace "Subject: " "" full_prompt))) in
  let caption := join " " words +:+ "..." in
  let scene_descriptor :=
    replace " " "" (shot_type scene) +:+ "-" +:+ time_of_day scene in
  let filename := scene_descriptor +:+ ".mp4" in
  dict [("prompt", VStr full_prompt); ("caption", VStr caption);
        ("file_name", VStr filename);
        ("input_image_urls", VList []); ("input_ids", VList [])].

(** [SceneConfig()] and [PromptComponents()], as [main] creates them. *)
Definition SceneConfig_default : SceneConfig := {|
  camera_fov := Finite 85; shot_type := "medium"; camera_angle := "low angle";
  lighting_type := "dramatic"; time_of_day := "dusk"; weather := "rainy"
|}.

Definition PromptComponents_default : PromptComponents := {|
  subject := "A woman in her late 20s, wearing an elegant, floor-length scarlet red dress, confident expression";
  action := "walking slowly down a rain-slicked city street, looking over her shoulder mysteriously";
  scene := "Downtown district at midnight, neon signs reflecting in wet pavement, narrow alleyway";
  camera := "Smooth tracking shot following behind, 85mm lens with shallow depth of field";
  composition := "Medium shot transitioning to close-up, rule of thirds composition";
  ambiance := "Film noir aesthetic, high contrast lighting, deep blues and purples with crimson dress accent";
  audio := "Audio: steady rain on pavement, distant jazz saxophone from a bar, her heels clicking on wet stone";
  style := "cinematic, film noir, moody atmospheric lighting"
|}.

End demo_veo3_builder.

(** ** [veo3_prompt_builder.py]

    The two dataclasses are declared exactly as in [simple_veo3_builder.py]
    and are shared with it here. [json.loads] belongs to the Python library:
    it is a parameter [json_loads], [None] standing for [JSONDecodeError]. *)

Module veo3_prompt_builder.
Import Py.
Export simple_veo3_builder (PromptComponents, SceneConfig).
Import simple_veo3_builder.

(** The entries of [st.session_state] other than the chat messages. *)
Record session_state := {
  prompt_components : PromptComponents;
  scene_config : SceneConfig;
  current_prompt : gmap string value
}.

Definition with_current_prompt (d : gmap string value) (st : session_state)
  : session_state := {|
  prompt_components := prompt_components st;
  scene_config := scene_config st;
  current_prompt := d
|}.

(** [initialize_session_state] on an empty session. *)
Definition initialize_session_state : session_state := {|
  prompt_components := PromptComponents_default;
  scene_config := SceneConfig_default;
  current_prompt :=
    dict [("prompt", VStr ""); ("caption", VStr "");
          ("file_name", VStr "video.mp4");
          ("input_image_urls", VList []); ("input_ids", VList [])]
|}.

Definition prompt_parts (components : PromptComponents) : list string :=
  (if truthy (subject components) then ["Subject: " +:+ subject components] else [])
  ++ (if truthy (action components) then ["Action: " +:+ action components] else [])
  ++ (if truthy (scene components) then ["Scene: " +:+ scene components] else [])
  ++ (if truthy (camera components) then ["Camera: " +:+ camera components] else [])
  ++ (if truthy (composition components)
      then ["Composition: " +:+ composition components] else [])
  ++ (if truthy (ambiance components) then ["Ambiance: " +:+ ambiance components] else [])
  ++ (if truthy (audio components) then ["Audio: " +:+ audio components] else [])
  ++ (if truthy (style components) then ["Style: " +:+ style components] else []).

Definition update_prompt_from_components (st : session_state) : session_state :=
  let components := prompt_components st in
  with_current_prompt
    (<["prompt" := VStr (join ". " (prompt_parts components))]> (current_prompt st))
    st.

(** The text handed to [json.loads] in [run], when the reply has a fenced
    block with a closing fence after its opening one. *)
Definition json_block (response : string) : option string :=
  if contains "```json" response then
    let json_start := find "```json" response 0 + 7 in
    let json_end := find "```" response json_start in
    if json_start <? json_end
    then Some (strip (slice response json_start json_end))
    else None
  else None.

(** What the JSON-extraction block of [run] leaves in
    [st.session_state.current_prompt]. *)
Inductive merged :=
| Document (d : gmap string value)
    (** the block completed; [d] is the document after it *)
| UpdateOfNonDict (v : value).
    (** [update] was handed a parsed value that is not a dict; what
        [dict.update] does with it is outside this model *)

Definition merge_reply (json_loads : string -> option value)
    (response : string) (d : gmap string value) : merged :=
  match json_block response with
  | Some json_str =>
      match json_loads json_str with
      | Some (VDict new_prompt) => Document (update d new_prompt)
      | Some v => UpdateOfNonDict v
      | None => Document d
      end
  | None => Document d
  end.

(** The button "Auto-Generate Caption & Filename": [None] when the entry
    under [prompt] is not a string, which this model does not follow
    further. *)
Definition auto_generate (st : session_state) : option session_state :=
  match get (current_prompt st) "prompt" (VStr "") with
  | VStr prompt_text =>
      if truthy prompt_text then
        let words := take 8 (split prompt_text) in
        let caption := join " " words +:+ "..." in
        let d := <["caption" := VStr caption]> (current_prompt st) in
        let scene_type := shot_type (scene_config st) in
        let time_of_day := time_of_day (scene_config st) in
        let filename := scene_type +:+ "-" +:+ time_of_day +:+ ".mp4" in
        Some (with_current_prompt (<["file_name" := VStr filename]> d) st)
      else Some st
  | _ => None
  end.

(** *** [initialize_session_state] on any session

    [st.session_state] as a dict from names to entries; a chat message is
    its role and its content. *)
Inductive entry :=
| Messages (l : list (string * string))
| Components (c : PromptComponents)
| Scene (s : SceneConfig)
| Prompt (d : gmap string value).

Definition greeting : string :=
  "Hi! I'm your Veo3 prompt assistant. Use the controls to set up your scene, then describe your video idea. I'll help you build a structured JSON prompt using the 8-component framework and current scene settings.".

(** [if key not in st.session_state: st.session_state[key] = v] *)
Definition setdefault (key : string) (v : entry) (ss : gmap string entry)
  : gmap string entry :=
  match ss !! key with
  | Some _ => ss
  | None => <[key := v]> ss
  end.

Definition initialize_session_state_in (ss : gmap string entry)
  : gmap string entry :=
  let ss := setdefault "messages" (Messages [("assistant", greeting)]) ss in
  let ss := setdefault "prompt_components" (Components PromptComponents_default) ss in
  let ss := setdefault "scene_config" (Scene SceneConfig_default) ss in
  setdefault "current_prompt"
    (Prompt (dict [("prompt", VStr ""); ("caption", VStr "");
                   ("file_name", VStr "video.mp4");
                   ("input_image_urls", VList []); ("input_ids", VList [])]))
    ss.

End veo3_prompt_builder.

(** ** Between the programs *)

Module Convert.

(** The components of the dashboard and the command-line builder as
    components of the demonstration script, field by field. *)
Definition to_demo (c : simple_veo3_builder.PromptComponents)
  : demo_veo3_builder.PromptComponents := {|
  demo_veo3_builder.subject := simple_veo3_builder.subject c;
  demo_veo3_builder.action := simple_veo3_builder.action c;
  demo_veo3_builder.scene := simple_veo3_builder.scene c;
  demo_veo3_builder.camera := simple_veo3_builder.camera c;
  demo_veo3_builder.composition := simple_veo3_builder.composition c;
  demo_veo3_builder.ambiance := simple_veo3_builder.ambiance c;
  demo_veo3_builder.audio := simple_veo3_builder.audio c;
  demo_veo3_builder.style := simple_veo3_builder.style c
|}.

End Convert.

(** ** What a caller observes *)


Module Observe.
Import Py simple_veo3_builder.

(** The document [build_final_prompt] leaves in [self.current_prompt]. *)
Definition built (b : Veo3PromptBuilder) : gmap string value :=
  self_current_prompt (build_final_prompt b).

(** The string [build_final_prompt] stores under ["caption"] when subject
    and action are both set. *)
Definition caption_of (c : PromptComponents) : string :=
  join " " (take 8 (split (subject c +:+ " " +:+ action c))).

(** The components after [suggest_from_scene] has run in the world [w],
    whether it returned or raised. *)
Definition suggested (w : World) : PromptComponents :=
  self_components (self (suggest_from_scene w).2).

(** What a line typed at a prompt of [build_prompt_components] makes of a
    field that held [old]. *)
Definition typed (old line : string) : string :=
  if truthy (strip line) then strip line else old.

(** The same on the attribute [name] of the components. *)
Definition typed_attr (name line : string) (c : PromptComponents)
  : PromptComponents :=
  if truthy (strip line) then setattr name (strip line) c else c.

(** The body of the loop of [build_prompt_components]. *)
Definition prompt_for (component : string) : M unit :=
  line ← input;
  let new_value := strip line in
  if truthy new_value
  then modify_components (setattr component new_value)
  else mret tt.

(** No field that held a value in [c] is empty in [c']. *)
Definition never_cleared (c c' : PromptComponents) : Prop :=
  (subject c <> "" -> subject c' <> "")
  /\ (action c <> "" -> action c' <> "")
  /\ (scene c <> "" -> scene c' <> "")
  /\ (style c <> "" -> style c' <> "")
  /\ (camera c <> "" -> camera c' <> "")
  /\ (composition c <> "" -> composition c' <> "")
  /\ (ambiance c <> "" -> ambiance c' <> "")
  /\ (audio c <> "" -> audio c' <> "").

(** The number of questions [suggest_from_scene] asks. *)
Definition questions (c : PromptComponents) : nat :=
  ((if truthy (camera c) then 0 else 1)
   + (if truthy (ambiance c) then 0 else 1))%nat.

(** The string stored under ["file_name"], if there is one. *)
Definition file_name_of (d : gmap string value) : option string :=
  match d !! "file_name" with
  | Some (VStr f) => Some f
  | _ => None
  end.

(** The sessions the command-line builder can be in: created by [__init__]
    and then taken through its methods, on any input. *)
Inductive reachable : Veo3PromptBuilder -> Prop :=
| reach_init : reachable init
| reach_configure (float_of_str : string -> option float) (w : World) :
    reachable (self w) -> reachable (self (configure_scene float_of_str w).2)
| reach_prompt (w : World) :
    reachable (self w) -> reachable (self (build_prompt_components w).2)
| reach_suggest (w : World) :
    reachable (self w) -> reachable (self (suggest_from_scene w).2)
| reach_build (b : Veo3PromptBuilder) :
    reachable b -> reachable (build_final_prompt b).

(** The document of a session keeps the five keys [__init__] gave it, with
    the two lists empty, and holds a caption other than the empty one only
    while subject and action are both set. *)
Definition document_in_step (b : Veo3PromptBuilder) : Prop :=
  dom (self_current_prompt b) = dom (self_current_prompt init)
  /\ self_current_prompt b !! "input_image_urls" = Some (VList [])
  /\ self_current_prompt b !! "input_ids" = Some (VList [])
  /\ (self_current_prompt b !! "caption" = Some (VStr "")
      \/ (subject (self_components b) <> "" /\ action (self_components b) <> "")).

(** The ranges and menus of [configure_scene]. *)
Definition scene_in_range (s : SceneConfig) : Prop :=
  float_ge (camera_fov s) 20 && float_le (camera_fov s) 120 = true
  /\ float_ge (camera_height s) 0 = true
  /\ float_gt (camera_distance s) 0 = true
  /\ shot_type s ∈ ["wide"; "medium"; "close-up"; "extreme close-up"]
  /\ camera_angle s ∈ ["eye-level"; "low angle"; "high angle"; "bird's eye"; "dutch angle"]
  /\ lighting_type s ∈ ["natural"; "dramatic"; "soft"; "backlit"]
  /\ time_of_day s ∈ ["dawn"; "day"; "dusk"; "night"]
  /\ weather s ∈ ["clear"; "cloudy"; "rainy"; "foggy"; "snowy"].

End Observe.

(** ** The specification's own wording

    Definitions that follow the words of the specification, to be compared
    with what the code computes. *)

Module Spec.
Import Py.

(** "[s] with all spaces and all hyphens removed" *)
Fixpoint without_spaces_and_hyphens (s : string) : string :=
  match s with
  | EmptyString => ""
  | String c s' =>
      if decide (c = " "%char \/ c = "-"%char)
      then without_spaces_and_hyphens s'
      else String c (without_spaces_and_hyphens s')
  end.

(** "[s] with every occurrence of [c] removed" *)
Fixpoint drop_char (c : ascii) (s : string) : string :=
  match s with
  | EmptyString => ""
  | String a s' => if decide (c = a) then drop_char c s' else String a (drop_char c s')
  end.

(** A string is a token when it is not empty and holds no whitespace. *)
Fixpoint no_space (s : string) : bool :=
  match s with
  | EmptyString => true
  | String c s' => negb (isspace c) && no_space s'
  end.

Definition token (s : string) : Prop := s <> "" /\ no_space s = true.

(** The table of ambiance suggestions of section 4.1. *)
Definition ambiance_table : list (string * string * string) :=
  [ ("natural", "day", "Bright natural sunlight with soft shadows");
    ("natural", "dawn", "Golden hour lighting with warm orange tones");
    ("natural", "dusk", "Blue hour with deep purple and orange sky");
    ("natural", "night", "Moonlight with cool blue tones and deep shadows");
    ("dramatic", "day", "High contrast lighting with sharp shadows");
    ("dramatic", "night", "Chiaroscuro lighting with stark black and white contrast");
    ("soft", "day", "Diffused overcast light with gentle shadows");
    ("backlit", "day", "Strong backlighting creating silhouettes and rim light") ].

(** The five lens bands of section 4.1, by name. *)
Definition lens_bands : list string :=
  [ "Super Telephoto (200mm+)"; "Telephoto (85-135mm)"; "Standard (35-50mm)";
    "Wide Angle (24-35mm)"; "Ultra Wide (14-24mm)" ].

End Spec.

(** ** Sessions used as examples *)

Module Samples.
Import Py simple_veo3_builder.

(** A fresh session whose caller has set [composition]. *)
Definition rule_of_thirds : Veo3PromptBuilder :=
  with_components
    (setattr "composition" "Rule of thirds" PromptComponents_default) init.

(** A fresh session whose caller has set [subject] and [action]. *)
Definition cat_jumps : Veo3PromptBuilder :=
  with_components
    (setattr "action" "jumps" (setattr "subject" "A cat" PromptComponents_default))
    init.

(** The session [cat_jumps] after a build, with its components then put
    back to their defaults by the caller. *)
Definition rebuilt : Veo3PromptBuilder :=
  with_components PromptComponents_default (build_final_prompt cat_jumps).

(** A fresh session and a caller who types a composition at the prompts of
    [build_prompt_components], leaves the seven other fields as they are
    and declines both suggestions. *)
Definition typed_composition : World := {|
  self := init;
  stdin := [""; ""; ""; ""; "Rule of thirds"; ""; ""; ""; "n"; "n"]
|}.

(** [float] on the texts the examples type: what it returns for four
    numerals, and [ValueError] for anything else. *)
Definition numbers (text : string) : option float :=
  if decide (text = "35") then Some (Finite 35)
  else if decide (text = "200") then Some (Finite 200)
  else if decide (text = "1.5") then Some (Finite 1.5)
  else if decide (text = "nan") then Some NaN
  else None.

(** A caller at the menu of [configure_scene]: field of view 35, accepted;
    shot type 3; field of view 200, refused; then a position whose height
    does not parse, so that the next line, ["6"], is read as a menu choice
    and ["4"] after it as the time of day; then ["8"]. *)
Definition menu_session : World := {|
  self := init;
  stdin := ["1"; "35"; " 2 "; "3"; "1"; "200"; "4"; "high"; "6"; "4"; "8"; "left over"]
|}.

(** The subject and action of the specification's caption example. *)
Definition woman_walking : Veo3PromptBuilder :=
  with_components
    (setattr "action" "walking slowly down a street"
       (setattr "subject" "A woman in her late 20s wearing red"
          PromptComponents_default))
    init.

Definition close_up_dusk : SceneConfig := {|
  camera_fov := Finite 50; camera_height := Finite 5;
  camera_distance := Finite 10; camera_angle := "eye-level";
  shot_type := "close-up"; lighting_intensity := Finite 1;
  lighting_type := "natural"; time_of_day := "dusk"; weather := "clear"
|}.

Definition soft_night : SceneConfig := {|
  camera_fov := Finite 50; camera_height := Finite 5;
  camera_distance := Finite 10; camera_angle := "eye-level";
  shot_type := "medium"; lighting_intensity := Finite 1;
  lighting_type := "soft"; time_of_day := "night"; weather := "clear"
|}.

(** The text of the JSON object with the keys [prompt] and [extra]:
    [{"prompt": "A cat", "extra": 1}], its quotes written as character 34. *)
Definition fragment_text : string :=
  "{" +:+ String "034" "prompt" +:+ String "034" ": "
  +:+ String "034" "A cat" +:+ String "034" ", "
  +:+ String "034" "extra" +:+ String "034" ": 1}".

(** What [json.loads] returns for [fragment_text]. *)
Definition fragment : list (string * value) :=
  [("prompt", VStr "A cat"); ("extra", VInt 1)].

(** A reply of the remote assistant with [fragment_text] in a fenced
    block. *)
Definition fragment_reply : string :=
  "Here it is: ```json " +:+ fragment_text +:+ " ``` Anything else?".

(** A reply whose fenced block is cut short. *)
Definition broken_text : string :=
  "{" +:+ String "034" "prompt" +:+ String "034" ":".

Definition broken_reply : string :=
  "```json " +:+ broken_text +:+ " ```".

(** [json.loads] on the two texts the examples hand it: the object for
    [fragment_text], [JSONDecodeError] for [broken_text]. *)
Definition loads (s : string) : option value :=
  if decide (s = fragment_text) then Some (VDict fragment) else None.

End Samples.

(** ** Facts about the built-ins *)

Module PyFacts.
Import Py.

Lemma truthy_true (s : string) : truthy s = true <-> s <> "".
Proof. destruct s; simpl; split; congruence. Qed.

Lemma truthy_false (s : string) : truthy s = false <-> s = "".
Proof. destruct s; simpl; split; congruence. Qed.

Lemma app_cons (c : ascii) (s t : string) : String c s +:+ t = String c (s +:+ t).
Proof. reflexivity. Qed.

Lemma app_empty_r (s : string) : s +:+ "" = s.
Proof. induction s as [|c s IH]; [reflexivity|]. by rewrite app_cons, IH. Qed.

Lemma app_assoc (s t u : string) : (s +:+ t) +:+ u = s +:+ (t +:+ u).
Proof. induction s as [|c s IH]; [reflexivity|]. by rewrite !app_cons, IH. Qed.

Lemma truthy_app_char (s : string) (c : ascii) : truthy (s +:+ String c "") = true.
Proof. by destruct s. Qed.

Lemma startswith_char (c a : ascii) (s : string) :
  startswith (String c "") (String a s) = bool_decide (c = a).
Proof. simpl. by destruct (decide (c = a)); [rewrite bool_decide_eq_true_2|rewrite bool_decide_eq_false_2]. Qed.

(** Replacing a one-character string by the empty string drops every
    occurrence of the character. *)
Lemma replace_char_empty (c : ascii) (s : string) :
  replace (String c "") "" s = Spec.drop_char c s.
Proof.
  unfold replace. simpl truthy. cbv iota.
  induction s as [|a s IH]; [reflexivity|].
  cbn [replace_go Spec.drop_char]. rewrite startswith_char.
  destruct (decide (c = a)) as [->|Hne].
  - rewrite bool_decide_eq_true_2 by done. simpl. exact IH.
  - rewrite bool_decide_eq_false_2 by done. by rewrite IH.
Qed.

Lemma drop_hyphen_then_space (s : string) :
  Spec.drop_char " " (Spec.drop_char "-" s) = Spec.without_spaces_and_hyphens s.
Proof.
  induction s as [|a s IH]; [reflexivity|]. simpl.
  destruct (decide ("-"%char = a)) as [<-|Hh].
  - rewrite IH. destruct (decide _) as [_|Hn]; [done|]. exfalso. apply Hn. by right.
  - simpl. destruct (decide (" "%char = a)) as [<-|Hs].
    + rewrite IH. destruct (decide _) as [_|Hn]; [done|]. exfalso. apply Hn. by left.
    + rewrite IH. destruct (decide _) as [[->| ->]|_]; done.
Qed.

(** *** [split] *)

Example split_runs :
  split ("  A  woman " +:+ String "009" (String "010" "in red")) = ["A"; "woman"; "in"; "red"]
  /\ split "" = []
  /\ split "   " = [].
Proof. vm_compute. repeat split; reflexivity. Qed.

Example replace_examples :
  replace "-" "" "extreme close-up" = "extreme closeup"
  /\ replace " " "" "extreme closeup" = "extremecloseup"
  /\ replace "aa" "b" "aaaaa" = "bba"
  /\ replace "" "-" "ab" = "-a-b-".
Proof. vm_compute. repeat split; reflexivity. Qed.

Example strip_find_slice :
  strip "  a b  " = "a b"
  /\ find "```" "x```json{}```" 8 = 10%Z
  /\ find "```" "x```json{}" 8 = (-1)%Z
  /\ slice "x```json{}```" 8 10 = "{}".
Proof. vm_compute. repeat split; reflexivity. Qed.

Lemma no_space_app (s t : string) :
  Spec.no_space (s +:+ t) = Spec.no_space s && Spec.no_space t.
Proof.
  induction s as [|c s IH]; [reflexivity|].
  rewrite app_cons. simpl. rewrite IH. by rewrite andb_assoc.
Qed.

(** Every word [split] returns is a token. *)
Lemma split_go_tokens (s cur : string) :
  Spec.no_space cur = true ->
  Forall Spec.token (split_go cur s).
Proof.
  revert cur. induction s as [|c s IH]; intros cur Hcur; simpl.
  - destruct (truthy cur) eqn:E; constructor; [|constructor].
    split; [by apply truthy_true|done].
  - destruct (isspace c) eqn:Ec.
    + destruct (truthy cur) eqn:E.
      * constructor; [split; [by apply truthy_true|done]|by apply IH].
      * by apply IH.
    + apply IH. rewrite no_space_app, Hcur. simpl. by rewrite Ec.
Qed.

Lemma split_tokens (s : string) : Forall Spec.token (split s).
Proof. by apply split_go_tokens. Qed.

(** Scanning a token extends the current run by it. *)
Lemma split_go_app (w rest cur : string) :
  Spec.no_space w = true ->
  split_go cur (w +:+ rest) = split_go (cur +:+ w) rest.
Proof.
  revert cur. induction w as [|c w IH]; intros cur Hw.
  - by rewrite app_empty_r.
  - simpl in Hw. apply andb_true_iff in Hw as [Hc Hw].
    rewrite app_cons. simpl. apply negb_true_iff in Hc. rewrite Hc.
    rewrite IH by done. by rewrite app_assoc.
Qed.

(** Joining tokens with single spaces and splitting again gives the
    tokens back. *)
Lemma split_join (ws : list string) :
  Forall Spec.token ws -> split (join " " ws) = ws.
Proof.
  unfold split. induction 1 as [|w ws [Hne Hw] Hws IH]; [reflexivity|].
  destruct ws as [|w' ws].
  - simpl. rewrite <- (app_empty_r w) at 1. rewrite split_go_app by done.
    change ("" +:+ w) with w. simpl.
    by apply truthy_true in Hne as ->.
  - change (join " " (w :: w' :: ws)) with (w +:+ " " +:+ join " " (w' :: ws)).
    rewrite split_go_app by done. change ("" +:+ w) with w.
    set (j := join " " (w' :: ws)) in *.
    change (" " +:+ j) with (String " " j). cbn [split_go].
    change (isspace " ") with true. cbv iota.
    apply truthy_true in Hne as ->. by rewrite IH.
Qed.

End PyFacts.

(** ** The prompt assembler of [simple_veo3_builder.py] *)

Module Assembler.
Import Py simple_veo3_builder Observe PyFacts.

Lemma built_prompt (b : Veo3PromptBuilder) :
  built b !! "prompt" = Some (VStr (join ". " (List.filter truthy (segments b)))).
Proof.
  unfold built, build_final_prompt. simpl.
  rewrite lookup_insert_ne by done.
  destruct (truthy _ && truthy _).
  - rewrite lookup_insert_ne by done. apply lookup_insert_eq.
  - apply lookup_insert_eq.
Qed.

Lemma built_file_name (b : Veo3PromptBuilder) :
  built b !! "file_name" =
  Some (VStr (replace " " "" (replace "-" "" (shot_type (self_scene b)))
              +:+ "-" +:+ time_of_day (self_scene b) +:+ ".mp4")).
Proof. unfold built, build_final_prompt. simpl. apply lookup_insert_eq. Qed.

Lemma built_caption (b : Veo3PromptBuilder) :
  built b !! "caption" =
  if truthy (subject (self_components b)) && truthy (action (self_components b))
  then Some (VStr (caption_of (self_components b)))
  else self_current_prompt b !! "caption".
Proof.
  unfold built, build_final_prompt. simpl.
  rewrite lookup_insert_ne by done.
  destruct (truthy _ && truthy _).
  - apply lookup_insert_eq.
  - by rewrite lookup_insert_ne.
Qed.

Lemma built_other (b : Veo3PromptBuilder) (k : string) :
  k <> "prompt" -> k <> "caption" -> k <> "file_name" ->
  built b !! k = self_current_prompt b !! k.
Proof.
  intros H1 H2 H3. unfold built, build_final_prompt. simpl.
  rewrite lookup_insert_ne by done.
  destruct (truthy _ && truthy _); by rewrite !lookup_insert_ne.
Qed.

(** [build_final_prompt] touches the document only. *)
Lemma build_components (b : Veo3PromptBuilder) :
  self_components (build_final_prompt b) = self_components b.
Proof. reflexivity. Qed.

Lemma build_scene (b : Veo3PromptBuilder) :
  self_scene (build_final_prompt b) = self_scene b.
Proof. reflexivity. Qed.

(** The segments, and so the prompt, read nothing of the document. *)
Lemma segments_document (b : Veo3PromptBuilder) (d : gmap string value) :
  segments (with_current_prompt d b) = segments b.
Proof. reflexivity. Qed.

Example init_prompt :
  built init !! "prompt" =
  Some (VStr "Composition: medium shot, eye-level. Style: cinematic, photorealistic").
Proof. vm_compute. reflexivity. Qed.

Example woman_walking_caption :
  built Samples.woman_walking !! "caption" =
  Some (VStr "A woman in her late 20s wearing red").
Proof. vm_compute. reflexivity. Qed.

(** C1, as amended. The fifth entry of the list [build_final_prompt]
    assembles, the Composition segment, is
    ["Composition: <shot_type> shot, <camera_angle>"] whenever the scene's
    shot type is not empty and is empty otherwise, whatever
    [components.composition] holds; it is the only entry with that label;
    and the prompt is the non-empty entries joined by [". "]. *)
Theorem composition_segment_synthesized (b : Veo3PromptBuilder) :
  segments b !! 4%nat =
    Some (if truthy (shot_type (self_scene b))
          then "Composition: " +:+ shot_type (self_scene b)
               +:+ " shot, " +:+ camera_angle (self_scene b)
          else "")
  /\ (forall x : string,
       segments (with_components (setattr "composition" x (self_components b)) b)
       = segments b)
  /\ (forall (i : nat) (seg : string),
       segments b !! i = Some seg ->
       startswith "Composition: " seg = true -> i = 4%nat)
  /\ built b !! "prompt" = Some (VStr (join ". " (List.filter truthy (segments b)))).
Proof.
  split; [reflexivity|]. split; [reflexivity|]. split; [|apply built_prompt].
  intros i seg Hi Hs. unfold segments in Hi.
  destruct i as [|[|[|[|[|[|[|[|i]]]]]]]]; simpl in Hi;
    try discriminate Hi; try reflexivity;
    injection Hi as <-; destruct (truthy _); vm_compute in Hs; discriminate Hs.
Qed.

(** Typed at the prompt, the composition is stored and then left out of the
    prompt all the same. *)
Example typed_composition_dropped :
  (prompt_then_build Samples.typed_composition).1 = Ok tt
  /\ composition (self_components (self (prompt_then_build Samples.typed_composition).2))
     = "Rule of thirds"
  /\ self_current_prompt (self (prompt_then_build Samples.typed_composition).2) !! "prompt"
     = Some (VStr "Composition: medium shot, eye-level. Style: cinematic, photorealistic").
Proof. vm_compute. repeat split; reflexivity. Qed.

(** C1 fails as stated: with [composition = "Rule of thirds"] set by the
    caller and the default scene, the Composition segment is the
    synthesized one and the caller's text appears nowhere in the prompt. *)
Lemma composition_caller_value_dropped :
  composition (self_components Samples.rule_of_thirds) = "Rule of thirds"
  /\ segments Samples.rule_of_thirds !! 4%nat
     = Some "Composition: medium shot, eye-level"
  /\ segments Samples.rule_of_thirds !! 4%nat
     <> Some ("Composition: " +:+ composition (self_components Samples.rule_of_thirds))
  /\ built Samples.rule_of_thirds !! "prompt"
     = Some (VStr "Composition: medium shot, eye-level. Style: cinematic, photorealistic").
Proof. vm_compute. repeat split; discriminate. Qed.

(** Two builders with the same components, scene and document entries are
    the same builder. *)
Lemma builder_ext (b1 b2 : Veo3PromptBuilder) :
  self_components b1 = self_components b2 ->
  self_scene b1 = self_scene b2 ->
  (forall k : string, self_current_prompt b1 !! k = self_current_prompt b2 !! k) ->
  b1 = b2.
Proof.
  destruct b1, b2; simpl; intros -> -> H. f_equal. by apply map_eq.
Qed.

(** The entry of the built document under any key, from the inputs and
    the document held before. *)
Lemma built_lookup (b : Veo3PromptBuilder) (k : string) :
  built b !! k =
  if decide (k = "prompt")
  then Some (VStr (join ". " (List.filter truthy (segments b))))
  else if decide (k = "caption")
  then (if truthy (subject (self_components b)) && truthy (action (self_components b))
        then Some (VStr (caption_of (self_components b)))
        else self_current_prompt b !! "caption")
  else if decide (k = "file_name")
  then Some (VStr (replace " " "" (replace "-" "" (shot_type (self_scene b)))
                   +:+ "-" +:+ time_of_day (self_scene b) +:+ ".mp4"))
  else self_current_prompt b !! k.
Proof.
  destruct (decide (k = "prompt")) as [->|H1]; [apply built_prompt|].
  destruct (decide (k = "caption")) as [->|H2]; [apply built_caption|].
  destruct (decide (k = "file_name")) as [->|H3]; [apply built_file_name|].
  by apply built_other.
Qed.

(** Building twice in a row changes nothing the second time. *)
Lemma build_idempotent (b : Veo3PromptBuilder) :
  build_final_prompt (build_final_prompt b) = build_final_prompt b.
Proof.
  apply builder_ext; [reflexivity..|]. intros k.
  fold (built (build_final_prompt b)). fold (built b).
  rewrite (built_lookup (build_final_prompt b)).
  rewrite build_components, build_scene.
  change (segments (build_final_prompt b)) with (segments b).
  fold (built b). rewrite !(built_lookup b k).
  repeat case_decide; try done.
  subst k. rewrite built_caption. by destruct (truthy _ && truthy _).
Qed.

(** C2, as amended. The built document is a function of the components,
    the scene and the document the session held before the call: for two
    sessions with equal components and scene, the built documents agree on
    [prompt] and [file_name], and on [caption] when subject and action are
    both set; sessions that also hold equal documents build equal ones;
    and building twice on unchanged inputs gives the same document as
    building once. *)
Theorem build_determined_by_inputs_and_prior (b1 b2 : Veo3PromptBuilder) :
  self_components b1 = self_components b2 ->
  self_scene b1 = self_scene b2 ->
  built b1 !! "prompt" = built b2 !! "prompt"
  /\ built b1 !! "file_name" = built b2 !! "file_name"
  /\ (subject (self_components b1) <> "" -> action (self_components b1) <> "" ->
      built b1 !! "caption" = built b2 !! "caption")
  /\ (self_current_prompt b1 = self_current_prompt b2 -> built b1 = built b2)
  /\ built (build_final_prompt b1) = built b1.
Proof.
  intros Hc Hs.
  assert (Hseg : segments b1 = segments b2) by (unfold segments; by rewrite Hc, Hs).
  split; [|split; [|split; [|split]]].
  - by rewrite !built_prompt, Hseg.
  - by rewrite !built_file_name, Hs.
  - intros Hsub Hact. rewrite !built_caption, <- Hc.
    apply truthy_true in Hsub as ->. by apply truthy_true in Hact as ->.
  - intros Hd. destruct b1, b2; simpl in *. by subst.
  - unfold built. by rewrite build_idempotent.
Qed.

Lemma build_determined_by_inputs_and_prior_witness :
  (self_components init = self_components Samples.rebuilt
   /\ self_scene init = self_scene Samples.rebuilt)
  /\ built init !! "prompt" = built Samples.rebuilt !! "prompt"
  /\ built init !! "file_name" = built Samples.rebuilt !! "file_name"
  /\ built (build_final_prompt init) = built init.
Proof.
  split; [split; reflexivity|].
  destruct (build_determined_by_inputs_and_prior
              init Samples.rebuilt eq_refl eq_refl)
    as (H1 & H2 & _ & _ & H5).
  exact (conj H1 (conj H2 H5)).
Defined.

(** C2 fails as stated: a fresh session and a session that was built once
    with a subject and an action hold equal components and scene once the
    caller has put the components back, yet their next builds differ in
    [caption]. *)
Lemma build_depends_on_prior_document :
  self_components init = self_components Samples.rebuilt
  /\ self_scene init = self_scene Samples.rebuilt
  /\ built init !! "caption" = Some (VStr "")
  /\ built Samples.rebuilt !! "caption" = Some (VStr "A cat jumps")
  /\ built init <> built Samples.rebuilt.
Proof.
  split; [reflexivity|]. split; [reflexivity|].
  assert (H1 : built init !! "caption" = Some (VStr ""))
    by (vm_compute; reflexivity).
  assert (H2 : built Samples.rebuilt !! "caption" = Some (VStr "A cat jumps"))
    by (vm_compute; reflexivity).
  split; [exact H1|]. split; [exact H2|].
  intros Heq. rewrite Heq, H2 in H1. discriminate H1.
Qed.

(** C3. When subject and action are both set, the caption is the first
    eight whitespace-delimited tokens of ["<subject> <action>"] joined by
    single spaces, with nothing appended: split again, it gives back
    exactly those tokens, at most eight. When either is empty the build
    leaves the caption as it was, so a caption that was empty, as in a
    fresh session, remains empty. *)
Theorem caption_first_eight_tokens (b : Veo3PromptBuilder) :
  (subject (self_components b) <> "" /\ action (self_components b) <> "" ->
     built b !! "caption" =
       Some (VStr (join " " (take 8 (split (subject (self_components b) +:+ " "
                                            +:+ action (self_components b)))))))
  /\ split (join " " (take 8 (split (subject (self_components b) +:+ " "
                                     +:+ action (self_components b)))))
     = take 8 (split (subject (self_components b) +:+ " "
                      +:+ action (self_components b)))
  /\ (length (take 8 (split (subject (self_components b) +:+ " "
                             +:+ action (self_components b)))) <= 8)%nat
  /\ (subject (self_components b) = "" \/ action (self_components b) = "" ->
       built b !! "caption" = self_current_prompt b !! "caption")
  /\ (subject (self_components b) = "" \/ action (self_components b) = "" ->
       self_current_prompt b !! "caption" = Some (VStr "") ->
       built b !! "caption" = Some (VStr "")).
Proof.
  assert (Hkeep : subject (self_components b) = "" \/ action (self_components b) = "" ->
                  built b !! "caption" = self_current_prompt b !! "caption").
  { intros Hempty. rewrite built_caption.
    destruct Hempty as [-> | ->]; [done|]. by rewrite andb_false_r. }
  split; [|split; [|split; [|split]]].
  - intros [Hsub Hact]. rewrite built_caption.
    apply truthy_true in Hsub as ->. by apply truthy_true in Hact as ->.
  - apply split_join, Forall_take, split_tokens.
  - rewrite length_take. lia.
  - exact Hkeep.
  - intros Hempty Hprior. by rewrite Hkeep.
Qed.

Lemma caption_first_eight_tokens_witness :
  built Samples.woman_walking !! "caption"
    = Some (VStr "A woman in her late 20s wearing red")
  /\ built init !! "caption" = Some (VStr "").
Proof.
  split.
  - destruct (caption_first_eight_tokens Samples.woman_walking) as (Hcap & _).
    rewrite Hcap; [vm_compute; reflexivity|]. split; discriminate.
  - destruct (caption_first_eight_tokens init) as (_ & _ & _ & _ & Hempty).
    apply Hempty; [left; reflexivity | vm_compute; reflexivity].
Defined.

Example fresh_session_caption_empty :
  built init !! "caption" = Some (VStr "").
Proof. vm_compute. reflexivity. Qed.

Example cat_jumps_caption :
  built Samples.cat_jumps !! "caption" = Some (VStr "A cat jumps").
Proof. vm_compute. reflexivity. Qed.

(** C7. The file name is the shot type with all spaces and all hyphens
    removed, then ["-"], then the time of day, then [".mp4"]. *)
Theorem file_name_sanitized (b : Veo3PromptBuilder) :
  built b !! "file_name" =
  Some (VStr (Spec.without_spaces_and_hyphens (shot_type (self_scene b))
              +:+ "-" +:+ time_of_day (self_scene b) +:+ ".mp4")).
Proof.
  rewrite built_file_name.
  change " " with (String " "%char "") at 1.
  change "-" with (String "-"%char "") at 1.
  by rewrite !replace_char_empty, drop_hyphen_then_space.
Qed.

(** C8, as amended. With shot type ["close-up"] and time of day ["dusk"]
    the file name is ["closeup-dusk.mp4"]: the hyphen of the shot type is
    removed, only the separating one remains. *)
Theorem file_name_close_up_dusk (b : Veo3PromptBuilder) :
  shot_type (self_scene b) = "close-up" ->
  time_of_day (self_scene b) = "dusk" ->
  built b !! "file_name" = Some (VStr "closeup-dusk.mp4").
Proof. intros Hshot Htime. rewrite built_file_name, Hshot, Htime. reflexivity. Qed.

Lemma file_name_close_up_dusk_witness :
  (shot_type Samples.close_up_dusk = "close-up"
   /\ time_of_day Samples.close_up_dusk = "dusk")
  /\ built (with_scene Samples.close_up_dusk init) !! "file_name"
     = Some (VStr "closeup-dusk.mp4").
Proof.
  split; [split; reflexivity|].
  apply (file_name_close_up_dusk (with_scene Samples.close_up_dusk init));
    reflexivity.
Defined.

(** C8 fails as stated: the file name built for ["close-up"] at ["dusk"]
    is not ["close-up-dusk.mp4"]. *)
Lemma file_name_close_up_dusk_keeps_no_hyphen :
  shot_type Samples.close_up_dusk = "close-up"
  /\ time_of_day Samples.close_up_dusk = "dusk"
  /\ built (with_scene Samples.close_up_dusk init) !! "file_name"
     = Some (VStr "closeup-dusk.mp4")
  /\ built (with_scene Samples.close_up_dusk init) !! "file_name"
     <> Some (VStr "close-up-dusk.mp4").
Proof. vm_compute. repeat split; discriminate. Qed.

(** C10. Two component records that differ at most in [composition] build
    the same document, for every scene and every document held before. *)
Theorem build_ignores_composition
    (c1 c2 : PromptComponents) (s : SceneConfig) (d : gmap string value) :
  subject c1 = subject c2 -> action c1 = action c2 -> scene c1 = scene c2 ->
  style c1 = style c2 -> camera c1 = camera c2 -> ambiance c1 = ambiance c2 ->
  audio c1 = audio c2 ->
  built {| self_components := c1; self_scene := s; self_current_prompt := d |}
  = built {| self_components := c2; self_scene := s; self_current_prompt := d |}.
Proof.
  intros Hsub Hact Hsc Hst Hcam Hamb Haud.
  unfold built, build_final_prompt, segments. simpl.
  by rewrite Hsub, Hact, Hsc, Hst, Hcam, Hamb, Haud.
Qed.

Lemma build_ignores_composition_witness :
  composition PromptComponents_default
    <> composition (self_components Samples.rule_of_thirds)
  /\ built init = built Samples.rule_of_thirds.
Proof.
  split; [discriminate|].
  apply (build_ignores_composition
           PromptComponents_default (self_components Samples.rule_of_thirds)
           SceneConfig_default (self_current_prompt init));
    reflexivity.
Defined.

End Assembler.

(** ** The lens guide *)

Module Lens.
Import Py.

Lemma float_lt_finite (q : Q) (n : Z) :
  float_lt (Finite q) n = true <-> (q < inject_Z n)%Q.
Proof.
  simpl. rewrite negb_true_iff, <- not_true_iff_false, Qle_bool_iff.
  split; [apply Qnot_le_lt | apply Qlt_not_le].
Qed.

Lemma float_lt_finite_false (q : Q) (n : Z) :
  float_lt (Finite q) n = false <-> (inject_Z n <= q)%Q.
Proof. simpl. by rewrite negb_false_iff, Qle_bool_iff. Qed.

(** A value that passes the guard [20 <= fov <= 120] of [configure_scene]
    is a finite number of that interval. *)
Lemma guard_finite (fov : float) :
  float_ge fov 20 && float_le fov 120 = true ->
  exists q : Q, fov = Finite q /\ (20 <= q <= 120)%Q.
Proof.
  destruct fov as [q| | |]; simpl; try discriminate.
  rewrite andb_true_iff, !Qle_bool_iff. intros [H1 H2]. by exists q.
Qed.

(** The demonstration script classifies as the command-line builder. *)
Lemma demo_lens_guide (sc : demo_veo3_builder.SceneConfig) :
  (demo_veo3_builder.analyze_scene_setup sc).1
  = simple_veo3_builder.display_lens_guide (demo_veo3_builder.camera_fov sc).
Proof.
  unfold demo_veo3_builder.analyze_scene_setup,
    simple_veo3_builder.display_lens_guide.
  by repeat destruct (float_lt _ _).
Qed.

Ltac lens_case q n H :=
  destruct (float_lt (Finite q) n) eqn:H;
  [apply float_lt_finite in H | apply float_lt_finite_false in H];
  unfold inject_Z in H.

(** C4. For every field of view in [[20,120]] the lens guide names one of
    the five bands, and names each band exactly on its interval:
    below 25, from 25 to below 35, from 35 to below 55, from 55 to below
    75, and from 75 on. The demonstration script's analysis gives the same
    band. *)
Theorem lens_bands_partition (q : Q) :
  (20 <= q <= 120)%Q ->
  (simple_veo3_builder.display_lens_guide (Finite q)).1 ∈ Spec.lens_bands
  /\ ((simple_veo3_builder.display_lens_guide (Finite q)).1
        = "Super Telephoto (200mm+)" <-> (q < 25)%Q)
  /\ ((simple_veo3_builder.display_lens_guide (Finite q)).1
        = "Telephoto (85-135mm)" <-> (25 <= q < 35)%Q)
  /\ ((simple_veo3_builder.display_lens_guide (Finite q)).1
        = "Standard (35-50mm)" <-> (35 <= q < 55)%Q)
  /\ ((simple_veo3_builder.display_lens_guide (Finite q)).1
        = "Wide Angle (24-35mm)" <-> (55 <= q < 75)%Q)
  /\ ((simple_veo3_builder.display_lens_guide (Finite q)).1
        = "Ultra Wide (14-24mm)" <-> (75 <= q)%Q)
  /\ (forall sc : demo_veo3_builder.SceneConfig,
        demo_veo3_builder.camera_fov sc = Finite q ->
        (demo_veo3_builder.analyze_scene_setup sc).1.1
        = (simple_veo3_builder.display_lens_guide (Finite q)).1).
Proof.
  intros [Hlo Hhi].
  assert (Hdemo : forall sc : demo_veo3_builder.SceneConfig,
             demo_veo3_builder.camera_fov sc = Finite q ->
             (demo_veo3_builder.analyze_scene_setup sc).1.1
             = (simple_veo3_builder.display_lens_guide (Finite q)).1).
  { intros sc Hsc. by rewrite demo_lens_guide, Hsc. }
  unfold simple_veo3_builder.display_lens_guide, Spec.lens_bands in *.
  lens_case q 25 H25; [|lens_case q 35 H35; [|lens_case q 55 H55;
    [|lens_case q 75 H75]]];
    simpl; (split; [set_solver|]);
    repeat split; try done; try (intros; discriminate); try lra;
    intros; exfalso; lra.
Qed.

Lemma lens_bands_partition_witness :
  (20 <= 25 <= 120)%Q
  /\ (simple_veo3_builder.display_lens_guide (Finite 25)).1 = "Telephoto (85-135mm)".
Proof.
  assert (H : (20 <= 25 <= 120)%Q) by (split; discriminate).
  split; [exact H|].
  destruct (lens_bands_partition 25 H) as (_ & _ & [_ Hband] & _).
  apply Hband. split; [discriminate | reflexivity].
Defined.

Example lens_at_boundaries :
  map (fun q => (simple_veo3_builder.display_lens_guide (Finite q)).1)
      [20; 24.9; 25; 34.9; 35; 54.9; 55; 74.9; 75; 120]%Q
  = [ "Super Telephoto (200mm+)"; "Super Telephoto (200mm+)";
      "Telephoto (85-135mm)"; "Telephoto (85-135mm)";
      "Standard (35-50mm)"; "Standard (35-50mm)";
      "Wide Angle (24-35mm)"; "Wide Angle (24-35mm)";
      "Ultra Wide (14-24mm)"; "Ultra Wide (14-24mm)" ].
Proof. vm_compute. reflexivity. Qed.

End Lens.

(** ** The suggestion engine of [simple_veo3_builder.py] *)

Module Suggestions.
Import Py simple_veo3_builder Observe PyFacts.

Lemma lower_y (answer : string) :
  lower answer = "y" <-> answer = "y" \/ answer = "Y".
Proof.
  split.
  - destruct answer as [|c [|c' rest]]; simpl; try discriminate.
    intros [= H]. destruct c as [[] [] [] [] [] [] [] []];
      vm_compute in H; try discriminate H; auto.
  - by intros [-> | ->].
Qed.

Ltac run_suggest :=
  unfold suggested, suggest_from_scene, mbind, M_bind, mret, M_ret,
    get_self, input, modify_components, with_components, setattr;
  simpl.

(** With two lines to read, [suggest_from_scene] returns. *)
Lemma suggest_from_scene_returns (w : World) :
  (2 <= length (stdin w))%nat ->
  exists w' : World, suggest_from_scene w = (Ok tt, w').
Proof.
  destruct w as [b [|l1 [|l2 rest]]]; simpl; try lia. intros _.
  run_suggest.
  repeat (case_match; simplify_eq/=); eauto.
Qed.

(** C5. [suggest_from_scene] leaves the scene, the document and the six
    fields other than [camera] and [ambiance] as they were; a [camera] or
    [ambiance] that held a value keeps it; and where one of the two has
    changed, it was empty before and now holds the suggestion for the
    scene. *)
Theorem suggestions_fill_only_empty_fields (w : World) :
  self_scene (self (suggest_from_scene w).2) = self_scene (self w)
  /\ self_current_prompt (self (suggest_from_scene w).2) = self_current_prompt (self w)
  /\ subject (suggested w) = subject (self_components (self w))
  /\ action (suggested w) = action (self_components (self w))
  /\ scene (suggested w) = scene (self_components (self w))
  /\ style (suggested w) = style (self_components (self w))
  /\ composition (suggested w) = composition (self_components (self w))
  /\ audio (suggested w) = audio (self_components (self w))
  /\ (camera (self_components (self w)) <> "" ->
      camera (suggested w) = camera (self_components (self w)))
  /\ (ambiance (self_components (self w)) <> "" ->
      ambiance (suggested w) = ambiance (self_components (self w)))
  /\ (camera (suggested w) <> camera (self_components (self w)) ->
      camera (self_components (self w)) = ""
      /\ camera (suggested w) = camera_suggestion (self_scene (self w)))
  /\ (ambiance (suggested w) <> ambiance (self_components (self w)) ->
      ambiance (self_components (self w)) = ""
      /\ ambiance (suggested w) = ambiance_suggestion (self_scene (self w))).
Proof.
  destruct w as [[c s d] lines]. run_suggest.
  destruct (truthy (camera c)) eqn:Hcam, (truthy (ambiance c)) eqn:Hamb;
    simpl; rewrite ?Hamb; simpl;
    repeat (case_match; simplify_eq/=);
    try (rewrite Hamb in *; discriminate);
    rewrite ?truthy_false in *;
    repeat split; try done; try (intros; congruence).
Qed.

Lemma suggestions_fill_only_empty_fields_witness :
  camera (suggested {| self := with_components (setattr "camera" "X" PromptComponents_default) init;
                       stdin := ["y"; "y"] |}) = "X".
Proof.
  destruct (suggestions_fill_only_empty_fields
              {| self := with_components (setattr "camera" "X" PromptComponents_default) init;
                 stdin := ["y"; "y"] |})
    as (_ & _ & _ & _ & _ & _ & _ & _ & Hcam & _).
  apply Hcam. discriminate.
Defined.

Example camera_X_kept :
  camera (suggested {| self := with_components (setattr "camera" "X" PromptComponents_default) init;
                       stdin := ["y"; "y"] |}) = "X".
Proof. vm_compute. reflexivity. Qed.

Example accepted_suggestions :
  camera (suggested {| self := init; stdin := ["y"; "Y"] |})
    = "Slow dolly forward for character focus"
  /\ ambiance (suggested {| self := init; stdin := ["y"; "Y"] |})
    = "Bright natural sunlight with soft shadows".
Proof. vm_compute. split; reflexivity. Qed.

Example declined_suggestions :
  suggested {| self := init; stdin := ["n"; "no"] |} = PromptComponents_default.
Proof. vm_compute. reflexivity. Qed.

(** An accepted ambiance suggestion is the one [ambiance_suggestion]
    computes. *)
Lemma ambiance_accepted (b : Veo3PromptBuilder) (rest : list string) :
  camera (self_components b) <> "" ->
  ambiance (self_components b) = "" ->
  ambiance (suggested {| self := b; stdin := "y" :: rest |})
  = ambiance_suggestion (self_scene b).
Proof.
  destruct b as [c s d]. simpl. intros Hcam%truthy_true Hamb%truthy_false.
  run_suggest. rewrite Hcam. simpl. by rewrite Hamb.
Qed.

Lemma ambiance_map_lookup (l t : string) :
  ambiance_map !! (l, t) =
  (fun r => r.2.2) <$> list_find (fun e => e.1 = (l, t)) Spec.ambiance_table.
Proof.
  unfold ambiance_map, dict, Spec.ambiance_table. cbn [foldl fst snd].
  repeat (rewrite lookup_insert; case_decide;
          [ simplify_eq; vm_compute; reflexivity | ]).
  rewrite lookup_empty. cbn [list_find fst snd fmap option_fmap option_map].
  repeat (case_decide; [congruence|]). reflexivity.
Qed.

(** C9. For a pair of the table the ambiance suggestion is the table's
    string, and for every other pair it is
    ["<lighting_type> <time_of_day> lighting"]. *)
Theorem ambiance_suggestion_table (s : SceneConfig) :
  (forall v : string,
     (lighting_type s, time_of_day s, v) ∈ Spec.ambiance_table ->
     ambiance_suggestion s = v)
  /\ ((forall v : string, (lighting_type s, time_of_day s, v) ∉ Spec.ambiance_table) ->
      ambiance_suggestion s
      = lighting_type s +:+ " " +:+ time_of_day s +:+ " lighting").
Proof.
  unfold ambiance_suggestion, get. cbv zeta. split.
  - intros v Hin. unfold Spec.ambiance_table in Hin.
    repeat (apply elem_of_cons in Hin as [[= -> -> ->] | Hin];
            [vm_compute; reflexivity|]).
    by apply elem_of_nil in Hin.
  - intros Hnot. rewrite ambiance_map_lookup.
    destruct (list_find _ _) as [[i [k v]]|] eqn:Hfind; [|reflexivity].
    apply list_find_Some in Hfind as (Hi & Hk & _). simpl in Hk. subst k.
    exfalso. apply (Hnot v). by eapply list_elem_of_lookup_2.
Qed.

Lemma ambiance_suggestion_table_witness :
  ambiance_suggestion SceneConfig_default = "Bright natural sunlight with soft shadows"
  /\ ambiance_suggestion Samples.soft_night = "soft night lighting".
Proof.
  split.
  - apply (ambiance_suggestion_table SceneConfig_default). apply list_elem_of_here.
  - destruct (ambiance_suggestion_table Samples.soft_night) as [_ Hfallback].
    rewrite Hfallback; [reflexivity|].
    intros v Hin. unfold Spec.ambiance_table in Hin. simpl in Hin.
    repeat (apply elem_of_cons in Hin as [Heq|Hin]; [discriminate Heq|]).
    by apply elem_of_nil in Hin.
Defined.

Example natural_day :
  ambiance_suggestion SceneConfig_default
  = "Bright natural sunlight with soft shadows".
Proof. vm_compute. reflexivity. Qed.

Example dramatic_night :
  forall s : SceneConfig,
    lighting_type s = "dramatic" -> time_of_day s = "night" ->
    ambiance_suggestion s
    = "Chiaroscuro lighting with stark black and white contrast".
Proof.
  intros s Hl Ht. unfold ambiance_suggestion. rewrite Hl, Ht.
  vm_compute. reflexivity.
Qed.

Example soft_night_fallback :
  ambiance_suggestion Samples.soft_night = "soft night lighting".
Proof. vm_compute. reflexivity. Qed.

End Suggestions.

(** ** The merge of an assistant reply in [veo3_prompt_builder.py] *)

Module Merge.
Import Py veo3_prompt_builder.

Section dict_update.
Context `{Countable K} {V : Type}.
Implicit Types (d : gmap K V) (kvs : list (K * V)).

(** [d.update(other)] reads [other] first and [d] for the keys [other]
    lacks. *)
Lemma update_lookup d kvs (k : K) :
  update d kvs !! k =
  match dict kvs !! k with
  | Some v => Some v
  | None => d !! k
  end.
Proof.
  unfold update, dict. revert d.
  induction kvs as [|[k0 v0] kvs IH]; intros d; simpl.
  - by rewrite lookup_empty.
  - rewrite IH, (IH (<[k0:=v0]> ∅)).
    destruct (foldl _ ∅ kvs !! k); [done|].
    rewrite !lookup_insert. case_decide; [done|]. by rewrite lookup_empty.
Qed.

Lemma dict_lookup_absent kvs (k : K) :
  k ∉ kvs.*1 -> dict kvs !! k = None.
Proof.
  unfold dict. induction kvs as [|[k0 v0] kvs IH] using rev_ind; [done|].
  rewrite fmap_app, foldl_app. simpl. intros Hk.
  apply not_elem_of_app in Hk as [Hk Hk0].
  rewrite lookup_insert_ne by set_solver. by apply IH.
Qed.

Lemma dict_lookup_present kvs (k : K) (v : V) :
  NoDup kvs.*1 -> (k, v) ∈ kvs -> dict kvs !! k = Some v.
Proof.
  unfold dict. induction kvs as [|[k0 v0] kvs IH] using rev_ind;
    [by intros _ ?%elem_of_nil|].
  rewrite fmap_app, foldl_app. simpl.
  intros [Hnd [Hdisj _]]%NoDup_app Hin.
  apply elem_of_app in Hin as [Hin|Hin%list_elem_of_singleton].
  - rewrite lookup_insert_ne; [by apply IH|].
    intros <-. apply (Hdisj k0); [|set_solver].
    apply list_elem_of_fmap. by exists (k0, v).
  - injection Hin as -> ->. apply lookup_insert_eq.
Qed.
End dict_update.

Section merge.
Variable json_loads : string -> option value.

(** C6, as amended. When the reply's fenced block parses to a JSON
    object, every key of the object is written into the document with
    the object's value, whether the document had the key or not, and
    the other keys of the document keep their values; when the block
    does not parse, the document is left as it was. *)
Theorem merge_reply_writes_every_key
    (response json_str : string) (d : gmap string value) :
  json_block response = Some json_str ->
  (forall new_prompt : list (string * value),
     json_loads json_str = Some (VDict new_prompt) ->
     NoDup new_prompt.*1 ->
     exists d' : gmap string value,
       merge_reply json_loads response d = Document d'
       /\ (forall (k : string) (v : value), (k, v) ∈ new_prompt -> d' !! k = Some v)
       /\ (forall k : string, k ∉ new_prompt.*1 -> d' !! k = d !! k))
  /\ (json_loads json_str = None ->
      merge_reply json_loads response d = Document d).
Proof.
  intros Hblock. unfold merge_reply. rewrite Hblock. split.
  - intros new_prompt -> Hnd. exists (update d new_prompt).
    split; [reflexivity|]. split.
    + intros k v Hin. by rewrite update_lookup, (dict_lookup_present _ k v).
    + intros k Hk. by rewrite update_lookup, dict_lookup_absent.
  - by intros ->.
Qed.

(** A reply without a fenced block, or with an empty one, leaves the
    document as it was. *)
Lemma merge_reply_no_block (response : string) (d : gmap string value) :
  json_block response = None ->
  merge_reply json_loads response d = Document d.
Proof. intros Hblock. unfold merge_reply. by rewrite Hblock. Qed.
End merge.

Example fragment_reply_block :
  json_block Samples.fragment_reply = Some Samples.fragment_text.
Proof. vm_compute. reflexivity. Qed.

Example broken_reply_block :
  json_block Samples.broken_reply = Some Samples.broken_text.
Proof. vm_compute. reflexivity. Qed.

Example unfenced_reply_block :
  json_block "No JSON yet: what is the subject?" = None
  /\ json_block "```json```" = None.
Proof. vm_compute. split; reflexivity. Qed.

Lemma merge_reply_writes_every_key_witness :
  json_block Samples.fragment_reply = Some Samples.fragment_text
  /\ exists d' : gmap string value,
       merge_reply Samples.loads Samples.fragment_reply
         (current_prompt initialize_session_state) = Document d'
       /\ d' !! "prompt" = Some (VStr "A cat")
       /\ d' !! "extra" = Some (VInt 1)
       /\ d' !! "file_name" = Some (VStr "video.mp4").
Proof.
  assert (Hblock : json_block Samples.fragment_reply = Some Samples.fragment_text)
    by (vm_compute; reflexivity).
  split; [exact Hblock|].
  destruct (merge_reply_writes_every_key Samples.loads _ _
              (current_prompt initialize_session_state) Hblock) as [Hobj _].
  assert (Hloads : Samples.loads Samples.fragment_text
                   = Some (VDict Samples.fragment))
    by (vm_compute; reflexivity).
  assert (Hnd : NoDup Samples.fragment.*1)
    by (apply (bool_decide_unpack _); vm_compute; exact I).
  destruct (Hobj Samples.fragment Hloads Hnd) as (d' & Hd' & Hin & Hout).
  exists d'. split; [exact Hd'|]. split; [|split].
  - apply Hin. apply list_elem_of_here.
  - apply Hin. apply list_elem_of_further, list_elem_of_here.
  - rewrite Hout; [vm_compute; reflexivity|].
    apply (bool_decide_unpack _). vm_compute. exact I.
Defined.

(** C6 fails as stated: the reply's object has the key [prompt], which is
    overwritten, and the key [extra], which the document does not have and
    which is not ignored but added to it. *)
Lemma merge_reply_adds_unknown_key :
  json_block Samples.fragment_reply = Some Samples.fragment_text
  /\ Samples.loads Samples.fragment_text = Some (VDict Samples.fragment)
  /\ current_prompt initialize_session_state !! "extra" = None
  /\ merge_reply Samples.loads Samples.fragment_reply
       (current_prompt initialize_session_state)
     = Document (<["extra" := VInt 1]>
                  (<["prompt" := VStr "A cat"]>
                     (current_prompt initialize_session_state)))
  /\ <["extra" := VInt 1]>
       (<["prompt" := VStr "A cat"]> (current_prompt initialize_session_state))
     !! "extra" = Some (VInt 1)
  /\ merge_reply Samples.loads Samples.fragment_reply
       (current_prompt initialize_session_state)
     <> Document (<["prompt" := VStr "A cat"]>
                   (current_prompt initialize_session_state)).
Proof.
  assert (Hm : merge_reply Samples.loads Samples.fragment_reply
                 (current_prompt initialize_session_state)
               = Document (<["extra" := VInt 1]>
                            (<["prompt" := VStr "A cat"]>
                               (current_prompt initialize_session_state))))
    by (vm_compute; reflexivity).
  split; [vm_compute; reflexivity|]. split; [vm_compute; reflexivity|].
  split; [vm_compute; reflexivity|]. split; [exact Hm|].
  split; [vm_compute; reflexivity|].
  rewrite Hm. intros Heq.
  apply (f_equal (fun r => match r with
                           | Document m => m !! "extra"
                           | UpdateOfNonDict _ => None
                           end)) in Heq.
  vm_compute in Heq. discriminate Heq.
Qed.

Example broken_reply_kept :
  Samples.loads Samples.broken_text = None
  /\ merge_reply Samples.loads Samples.broken_reply
       (current_prompt initialize_session_state)
     = Document (current_prompt initialize_session_state).
Proof. vm_compute. split; reflexivity. Qed.

End Merge.

(** ** Prompting for the components in [simple_veo3_builder.py] *)

Module Prompting.
Import Py simple_veo3_builder Observe PyFacts.

Lemma build_prompt_components_unfold :
  build_prompt_components = (for_each components_info prompt_for;; suggest_from_scene).
Proof. reflexivity. Qed.

Lemma with_components_same (b : Veo3PromptBuilder) :
  with_components (self_components b) b = b.
Proof. by destruct b. Qed.

(** One prompt with a line to read. *)
Lemma prompt_for_line (n line : string) (b : Veo3PromptBuilder) (rest : list string) :
  prompt_for n {| self := b; stdin := line :: rest |}
  = (Ok tt, {| self := with_components (typed_attr n line (self_components b)) b;
               stdin := rest |}).
Proof.
  unfold prompt_for, typed_attr, mbind, M_bind, input, modify_components, mret, M_ret.
  simpl. destruct (truthy (strip line)); [done|]. by rewrite with_components_same.
Qed.

(** One prompt at the end of the input. *)
Lemma prompt_for_eof (n : string) (b : Veo3PromptBuilder) :
  prompt_for n {| self := b; stdin := [] |} = (Raise EOFError, {| self := b; stdin := [] |}).
Proof. reflexivity. Qed.

Lemma for_each_line (n : string) (names : list string) (line : string)
    (b : Veo3PromptBuilder) (rest : list string) :
  for_each (n :: names) prompt_for {| self := b; stdin := line :: rest |}
  = for_each names prompt_for
      {| self := with_components (typed_attr n line (self_components b)) b;
         stdin := rest |}.
Proof.
  cbn [for_each]. unfold mbind at 1. unfold M_bind at 1. by rewrite prompt_for_line.
Qed.

Lemma for_each_line_fields (n : string) (names : list string) (line : string)
    (c : PromptComponents) (s : SceneConfig) (d : gmap string value)
    (rest : list string) :
  for_each (n :: names) prompt_for
    {| self := {| self_components := c; self_scene := s; self_current_prompt := d |};
       stdin := line :: rest |}
  = for_each names prompt_for
      {| self := {| self_components := typed_attr n line c; self_scene := s;
                    self_current_prompt := d |};
         stdin := rest |}.
Proof. by rewrite for_each_line. Qed.

Lemma for_each_eof (n : string) (names : list string) (b : Veo3PromptBuilder) :
  for_each (n :: names) prompt_for {| self := b; stdin := [] |}
  = (Raise EOFError, {| self := b; stdin := [] |}).
Proof. reflexivity. Qed.

(** A property of the world that every step of a loop keeps, whether the
    step returns or raises, holds after the loop. *)
Lemma for_each_invariant (I : World -> Prop) (names : list string)
    (body : string -> M unit) :
  (forall (n : string) (w : World), I w -> I (body n w).2) ->
  forall w : World, I w -> I (for_each names body w).2.
Proof.
  intros Hbody. induction names as [|n names IH]; intros w Hw; [done|].
  cbn [for_each]. unfold mbind, M_bind.
  specialize (Hbody n w Hw). destruct (body n w) as [[[]|e] w']; simpl in *; auto.
Qed.

Lemma bind_invariant {A B : Type} (I : World -> Prop) (m : M A) (k : A -> M B) :
  (forall w : World, I w -> I (m w).2) ->
  (forall (a : A) (w : World), I w -> I (k a w).2) ->
  forall w : World, I w -> I ((m ≫= k) w).2.
Proof.
  intros Hm Hk w Hw. unfold mbind, M_bind.
  specialize (Hm w Hw). destruct (m w) as [[a|e] w']; simpl in *; auto.
Qed.

(** *** No prompt clears a field *)

Lemma never_cleared_refl (c : PromptComponents) : never_cleared c c.
Proof. unfold never_cleared. tauto. Qed.

Lemma never_cleared_trans (c1 c2 c3 : PromptComponents) :
  never_cleared c1 c2 -> never_cleared c2 c3 -> never_cleared c1 c3.
Proof. unfold never_cleared. tauto. Qed.

Lemma never_cleared_setattr (n v : string) (c : PromptComponents) :
  v <> "" -> never_cleared c (setattr n v c).
Proof.
  intros Hv. unfold never_cleared, setattr. simpl.
  repeat split; intros; by case_decide.
Qed.

Lemma never_cleared_typed_attr (n line : string) (c : PromptComponents) :
  never_cleared c (typed_attr n line c).
Proof.
  unfold typed_attr. destruct (truthy (strip line)) eqn:E.
  - by apply never_cleared_setattr, truthy_true.
  - apply never_cleared_refl.
Qed.

Lemma prompt_for_never_clears (c0 : PromptComponents) (n : string) (w : World) :
  never_cleared c0 (self_components (self w)) ->
  never_cleared c0 (self_components (self (prompt_for n w).2)).
Proof.
  destruct w as [b [|line rest]]; [done|]. rewrite prompt_for_line. simpl.
  intros H. eapply never_cleared_trans; [exact H|apply never_cleared_typed_attr].
Qed.

Ltac run_suggestions :=
  unfold suggested, suggest_from_scene, mbind, M_bind, mret, M_ret,
    get_self, input, modify_components, with_components, setattr;
  simpl.

Lemma suggest_never_clears (w : World) :
  never_cleared (self_components (self w))
    (self_components (self (suggest_from_scene w).2)).
Proof.
  destruct w as [[c s d] lines]. unfold never_cleared. run_suggestions.
  destruct (truthy (camera c)) eqn:Hcam, (truthy (ambiance c)) eqn:Hamb;
    simpl; rewrite ?Hamb; simpl;
    repeat (case_match; simplify_eq/=);
    try (rewrite Hamb in *; discriminate);
    rewrite ?truthy_false in *;
    repeat split; try done; try (intros; congruence).
Qed.

(** What [suggest_from_scene] and the prompts leave alone. *)
Lemma suggest_frame (w : World) :
  self_scene (self (suggest_from_scene w).2) = self_scene (self w)
  /\ self_current_prompt (self (suggest_from_scene w).2) = self_current_prompt (self w).
Proof.
  destruct w as [[c s d] lines]. run_suggestions.
  destruct (truthy (camera c)), (truthy (ambiance c)); simpl;
    repeat (case_match; simplify_eq/=); done.
Qed.

Lemma prompt_for_frame (n : string) (w : World) :
  self_scene (self (prompt_for n w).2) = self_scene (self w)
  /\ self_current_prompt (self (prompt_for n w).2) = self_current_prompt (self w).
Proof. destruct w as [b [|line rest]]; [done|]. by rewrite prompt_for_line. Qed.

Lemma build_prompt_components_keeps (w : World) :
  never_cleared (self_components (self w))
    (self_components (self (build_prompt_components w).2))
  /\ self_scene (self (build_prompt_components w).2) = self_scene (self w)
  /\ self_current_prompt (self (build_prompt_components w).2)
     = self_current_prompt (self w).
Proof.
  rewrite build_prompt_components_unfold.
  set (I := fun w' : World =>
         never_cleared (self_components (self w)) (self_components (self w'))
         /\ self_scene (self w') = self_scene (self w)
         /\ self_current_prompt (self w') = self_current_prompt (self w)).
  change (I ((for_each components_info prompt_for;; suggest_from_scene) w).2).
  apply (bind_invariant I).
  - apply for_each_invariant. intros n w' (H1 & H2 & H3).
    destruct (prompt_for_frame n w') as [F1 F2].
    split; [by apply prompt_for_never_clears|]. split; congruence.
  - intros _ w' (H1 & H2 & H3). destruct (suggest_frame w') as [F1 F2].
    split; [|split; congruence].
    eapply never_cleared_trans; [exact H1|apply suggest_never_clears].
  - split; [apply never_cleared_refl|done].
Qed.

(** [build_prompt_components], on any input and whether it returns or
    raises, leaves no field empty that held a value, and touches neither
    the scene nor the document. *)
Theorem build_prompt_components_never_clears (w : World) :
  never_cleared (self_components (self w))
    (self_components (self (build_prompt_components w).2))
  /\ self_scene (self (build_prompt_components w).2) = self_scene (self w)
  /\ self_current_prompt (self (build_prompt_components w).2)
     = self_current_prompt (self w).
Proof. apply build_prompt_components_keeps. Qed.

(** *** Raising means the input has run out *)




(** *** What the typed lines make of the fields *)

Ltac solve_typed_attr :=
  unfold typed_attr, typed; destruct (truthy (strip _)); simpl;
  repeat case_decide; done.

Lemma subject_typed_attr (line : string) (c : PromptComponents) :
  subject (typed_attr "subject" line c) = typed (subject c) line.
Proof. solve_typed_attr. Qed.

Lemma subject_typed_attr_other (n line : string) (c : PromptComponents) :
  n <> "subject" -> subject (typed_attr n line c) = subject c.
Proof. intros Hn. solve_typed_attr. Qed.

Lemma action_typed_attr (line : string) (c : PromptComponents) :
  action (typed_attr "action" line c) = typed (action c) line.
Proof. solve_typed_attr. Qed.

Lemma action_typed_attr_other (n line : string) (c : PromptComponents) :
  n <> "action" -> action (typed_attr n line c) = action c.
Proof. intros Hn. solve_typed_attr. Qed.

Lemma scene_typed_attr (line : string) (c : PromptComponents) :
  scene (typed_attr "scene" line c) = typed (scene c) line.
Proof. solve_typed_attr. Qed.

Lemma scene_typed_attr_other (n line : string) (c : PromptComponents) :
  n <> "scene" -> scene (typed_attr n line c) = scene c.
Proof. intros Hn. solve_typed_attr. Qed.

Lemma style_typed_attr (line : string) (c : PromptComponents) :
  style (typed_attr "style" line c) = typed (style c) line.
Proof. solve_typed_attr. Qed.

Lemma style_typed_attr_other (n line : string) (c : PromptComponents) :
  n <> "style" -> style (typed_attr n line c) = style c.
Proof. intros Hn. solve_typed_attr. Qed.

Lemma camera_typed_attr (line : string) (c : PromptComponents) :
  camera (typed_attr "camera" line c) = typed (camera c) line.
Proof. solve_typed_attr. Qed.

Lemma camera_typed_attr_other (n line : string) (c : PromptComponents) :
  n <> "camera" -> camera (typed_attr n line c) = camera c.
Proof. intros Hn. solve_typed_attr. Qed.

Lemma composition_typed_attr (line : string) (c : PromptComponents) :
  composition (typed_attr "composition" line c) = typed (composition c) line.
Proof. solve_typed_attr. Qed.

Lemma composition_typed_attr_other (n line : string) (c : PromptComponents) :
  n <> "composition" -> composition (typed_attr n line c) = composition c.
Proof. intros Hn. solve_typed_attr. Qed.

Lemma ambiance_typed_attr (line : string) (c : PromptComponents) :
  ambiance (typed_attr "ambiance" line c) = typed (ambiance c) line.
Proof. solve_typed_attr. Qed.

Lemma ambiance_typed_attr_other (n line : string) (c : PromptComponents) :
  n <> "ambiance" -> ambiance (typed_attr n line c) = ambiance c.
Proof. intros Hn. solve_typed_attr. Qed.

Lemma audio_typed_attr (line : string) (c : PromptComponents) :
  audio (typed_attr "audio" line c) = typed (audio c) line.
Proof. solve_typed_attr. Qed.

Lemma audio_typed_attr_other (n line : string) (c : PromptComponents) :
  n <> "audio" -> audio (typed_attr n line c) = audio c.
Proof. intros Hn. solve_typed_attr. Qed.

(** The six fields [suggest_from_scene] never writes, and the two it writes
    only when they are empty. *)
Lemma suggest_fields (w : World) :
  subject (suggested w) = subject (self_components (self w))
  /\ action (suggested w) = action (self_components (self w))
  /\ scene (suggested w) = scene (self_components (self w))
  /\ style (suggested w) = style (self_components (self w))
  /\ composition (suggested w) = composition (self_components (self w))
  /\ audio (suggested w) = audio (self_components (self w))
  /\ (camera (self_components (self w)) <> "" ->
      camera (suggested w) = camera (self_components (self w)))
  /\ (ambiance (self_components (self w)) <> "" ->
      ambiance (suggested w) = ambiance (self_components (self w))).
Proof.
  destruct w as [[c s d] lines]. run_suggestions.
  destruct (truthy (camera c)) eqn:Hcam, (truthy (ambiance c)) eqn:Hamb;
    simpl; rewrite ?Hamb; simpl;
    repeat (case_match; simplify_eq/=);
    try (rewrite Hamb in *; discriminate);
    rewrite ?truthy_false in *;
    repeat split; try done; try (intros; congruence).
Qed.

(** With eight lines to read, [build_prompt_components] gives each field, in
    the order subject, action, scene, camera, composition, ambiance, audio,
    style, the stripped text of its line, or leaves it as it was when the
    line is blank. A camera or ambiance left empty goes on to the
    suggestions. *)
Theorem build_prompt_components_fields
    (b : Veo3PromptBuilder) (l1 l2 l3 l4 l5 l6 l7 l8 : string) (rest : list string) :
  subject (self_components (self (build_prompt_components
      {| self := b; stdin := l1 :: l2 :: l3 :: l4 :: l5 :: l6 :: l7 :: l8 :: rest |}).2))
    = typed (subject (self_components b)) l1
  /\ action (self_components (self (build_prompt_components
      {| self := b; stdin := l1 :: l2 :: l3 :: l4 :: l5 :: l6 :: l7 :: l8 :: rest |}).2))
    = typed (action (self_components b)) l2
  /\ scene (self_components (self (build_prompt_components
      {| self := b; stdin := l1 :: l2 :: l3 :: l4 :: l5 :: l6 :: l7 :: l8 :: rest |}).2))
    = typed (scene (self_components b)) l3
  /\ composition (self_components (self (build_prompt_components
      {| self := b; stdin := l1 :: l2 :: l3 :: l4 :: l5 :: l6 :: l7 :: l8 :: rest |}).2))
    = typed (composition (self_components b)) l5
  /\ audio (self_components (self (build_prompt_components
      {| self := b; stdin := l1 :: l2 :: l3 :: l4 :: l5 :: l6 :: l7 :: l8 :: rest |}).2))
    = typed (audio (self_components b)) l7
  /\ style (self_components (self (build_prompt_components
      {| self := b; stdin := l1 :: l2 :: l3 :: l4 :: l5 :: l6 :: l7 :: l8 :: rest |}).2))
    = typed (style (self_components b)) l8
  /\ (typed (camera (self_components b)) l4 <> "" ->
      camera (self_components (self (build_prompt_components
        {| self := b; stdin := l1 :: l2 :: l3 :: l4 :: l5 :: l6 :: l7 :: l8 :: rest |}).2))
      = typed (camera (self_components b)) l4)
  /\ (typed (ambiance (self_components b)) l6 <> "" ->
      ambiance (self_components (self (build_prompt_components
        {| self := b; stdin := l1 :: l2 :: l3 :: l4 :: l5 :: l6 :: l7 :: l8 :: rest |}).2))
      = typed (ambiance (self_components b)) l6).
Proof.
  destruct b as [c s d]. cbn [self_components].
  assert (Hrun : build_prompt_components
            {| self := {| self_components := c; self_scene := s;
                          self_current_prompt := d |};
               stdin := l1 :: l2 :: l3 :: l4 :: l5 :: l6 :: l7 :: l8 :: rest |}
          = suggest_from_scene
              {| self := {| self_components :=
                              typed_attr "style" l8 (typed_attr "audio" l7
                                (typed_attr "ambiance" l6 (typed_attr "composition" l5
                                  (typed_attr "camera" l4 (typed_attr "scene" l3
                                    (typed_attr "action" l2
                                      (typed_attr "subject" l1 c)))))));
                            self_scene := s; self_current_prompt := d |};
                 stdin := rest |}).
  { rewrite build_prompt_components_unfold. unfold mbind at 1. unfold M_bind at 1.
    unfold components_info. by rewrite !for_each_line_fields. }
  rewrite Hrun. clear Hrun.
  match goal with |- context [suggest_from_scene ?w] =>
    destruct (suggest_fields w) as (H1 & H2 & H3 & H4 & H5 & H6 & H7 & H8);
    unfold suggested in *; cbn [self self_components] in H1, H2, H3, H4, H5, H6, H7, H8
  end.
  rewrite H1, H2, H3, H5, H6, H4. clear H1 H2 H3 H4 H5 H6.
  repeat split.
  - by rewrite !subject_typed_attr_other, subject_typed_attr by discriminate.
  - by rewrite !action_typed_attr_other, action_typed_attr,
      ?action_typed_attr_other by discriminate.
  - by rewrite !scene_typed_attr_other, scene_typed_attr,
      ?scene_typed_attr_other by discriminate.
  - by rewrite !composition_typed_attr_other, composition_typed_attr,
      ?composition_typed_attr_other by discriminate.
  - by rewrite !audio_typed_attr_other, audio_typed_attr,
      ?audio_typed_attr_other by discriminate.
  - by rewrite style_typed_attr, ?style_typed_attr_other by discriminate.
  - rewrite !camera_typed_attr_other, camera_typed_attr,
      ?camera_typed_attr_other in H7 by discriminate.
    exact H7.
  - rewrite !ambiance_typed_attr_other, ambiance_typed_attr,
      ?ambiance_typed_attr_other in H8 by discriminate.
    exact H8.
Qed.

(** With fewer than eight lines to read, [build_prompt_components] raises
    [EOFError] at the first prompt left without a line, before any
    suggestion is made; the scene and the document are as before. *)
Theorem build_prompt_components_eof (w : World) :
  (length (stdin w) < 8)%nat ->
  (build_prompt_components w).1 = Raise EOFError
  /\ stdin (build_prompt_components w).2 = []
  /\ self_scene (self (build_prompt_components w).2) = self_scene (self w)
  /\ self_current_prompt (self (build_prompt_components w).2)
     = self_current_prompt (self w).
Proof.
  destruct w as [[c s d] lines]. simpl. intros Hlen.
  rewrite build_prompt_components_unfold. unfold mbind, M_bind, components_info.
  do 8 (destruct lines as [|? lines];
        [rewrite ?for_each_line_fields, for_each_eof; done|]).
  simpl in Hlen. lia.
Qed.

Lemma build_prompt_components_eof_witness :
  (build_prompt_components {| self := init; stdin := ["A cat"; "jumps"] |}).1
  = Raise EOFError.
Proof.
  apply (build_prompt_components_eof {| self := init; stdin := ["A cat"; "jumps"] |}).
  simpl. lia.
Defined.

(** [suggest_from_scene] reads one line for each of camera and ambiance
    that is empty, in that order, and nothing else; it returns when the
    input has that many lines and raises [EOFError] when it has not. *)
Theorem suggest_from_scene_reads (w : World) :
  stdin (suggest_from_scene w).2
    = drop (questions (self_components (self w))) (stdin w)
  /\ (suggest_from_scene w).1
     = if decide (questions (self_components (self w)) <= length (stdin w))%nat
       then Ok tt else Raise EOFError.
Proof.
  destruct w as [[c s d] lines]. unfold questions. run_suggestions.
  destruct (truthy (camera c)) eqn:Hcam, (truthy (ambiance c)) eqn:Hamb;
    simpl; rewrite ?Hamb; simpl;
    destruct lines as [|a1 [|a2 rest]]; simpl;
    repeat (case_match; simplify_eq/=);
    try (rewrite Hamb in *; discriminate);
    split; try done; case_decide; try done; simpl in *; lia.
Qed.

(** On a session with camera and ambiance both empty, the first answer
    decides on the camera suggestion and the second on the ambiance one;
    an answer accepts exactly when it is ["y"] or ["Y"]. *)
Theorem suggest_from_scene_answers
    (b : Veo3PromptBuilder) (a1 a2 : string) (rest : list string) :
  camera (self_components b) = "" ->
  ambiance (self_components b) = "" ->
  camera (suggested {| self := b; stdin := a1 :: a2 :: rest |})
    = (if decide (a1 = "y" \/ a1 = "Y") then camera_suggestion (self_scene b) else "")
  /\ ambiance (suggested {| self := b; stdin := a1 :: a2 :: rest |})
     = (if decide (a2 = "y" \/ a2 = "Y") then ambiance_suggestion (self_scene b) else "").
Proof.
  destruct b as [c s d]. simpl. intros Hcam Hamb. run_suggestions.
  rewrite Hcam. simpl.
  destruct (decide (lower a1 = "y")) as [H1|H1]; simpl; rewrite Hamb; simpl;
    destruct (decide (lower a2 = "y")) as [H2|H2]; simpl;
    rewrite Suggestions.lower_y in H1, H2;
    split; case_decide; done.
Qed.

Lemma suggest_from_scene_answers_witness :
  camera (suggested {| self := init; stdin := ["Y"; "yes"] |})
    = "Slow dolly forward for character focus"
  /\ ambiance (suggested {| self := init; stdin := ["Y"; "yes"] |}) = "".
Proof.
  destruct (suggest_from_scene_answers init "Y" "yes" [] eq_refl eq_refl)
    as [Hcam Hamb].
  split.
  - rewrite Hcam. vm_compute. reflexivity.
  - rewrite Hamb. vm_compute. reflexivity.
Defined.

(** The camera suggestion is the string listed for the shot type, and
    ["Static shot"] for a shot type that is not listed. *)
Theorem camera_suggestion_table (s : SceneConfig) :
  (shot_type s = "wide" ->
     camera_suggestion s = "Static wide shot establishing the environment")
  /\ (shot_type s = "medium" ->
     camera_suggestion s = "Slow dolly forward for character focus")
  /\ (shot_type s = "close-up" ->
     camera_suggestion s = "Handheld close-up for intimacy")
  /\ (shot_type s = "extreme close-up" ->
     camera_suggestion s = "Macro lens extreme close-up revealing details")
  /\ (shot_type s ∉ ["wide"; "medium"; "close-up"; "extreme close-up"] ->
     camera_suggestion s = "Static shot").
Proof.
  unfold camera_suggestion, get.
  split; [|split; [|split; [|split]]]; try (intros ->; vm_compute; reflexivity).
  intros Hnot. unfold camera_suggestions, dict. cbn [foldl fst snd].
  rewrite !lookup_insert_ne, lookup_empty; [done|..];
    intros Heq; apply Hnot; rewrite <- Heq; set_solver.
Qed.

Lemma camera_suggestion_table_witness :
  camera_suggestion SceneConfig_default = "Slow dolly forward for character focus"
  /\ camera_suggestion (with_shot_type "aerial" SceneConfig_default) = "Static shot".
Proof.
  destruct (camera_suggestion_table SceneConfig_default) as (_ & Hmedium & _).
  destruct (camera_suggestion_table (with_shot_type "aerial" SceneConfig_default))
    as (_ & _ & _ & _ & Hother).
  split; [apply Hmedium; reflexivity|].
  apply Hother. simpl. intros Hin.
  repeat (apply elem_of_cons in Hin as [Heq|Hin]; [discriminate Heq|]).
  by apply elem_of_nil in Hin.
Defined.

End Prompting.

(** ** [configure_scene] in [simple_veo3_builder.py] *)

Module Configure.
Import Py simple_veo3_builder Observe PyFacts.

Ltac menu_values :=
  unfold dict; cbn [foldl fst snd];
  repeat (rewrite lookup_insert; case_decide; [intros [= <-]; set_solver|]);
  rewrite lookup_empty; discriminate.

Lemma shots_values (k v : string) :
  shots !! k = Some v -> v ∈ ["wide"; "medium"; "close-up"; "extreme close-up"].
Proof. unfold shots. menu_values. Qed.

Lemma angles_values (k v : string) :
  angles !! k = Some v ->
  v ∈ ["eye-level"; "low angle"; "high angle"; "bird's eye"; "dutch angle"].
Proof. unfold angles. menu_values. Qed.

Lemma lights_values (k v : string) :
  lights !! k = Some v -> v ∈ ["natural"; "dramatic"; "soft"; "backlit"].
Proof. unfold lights. menu_values. Qed.

Lemma times_values (k v : string) :
  times !! k = Some v -> v ∈ ["dawn"; "day"; "dusk"; "night"].
Proof. unfold times. menu_values. Qed.

Lemma weathers_values (k v : string) :
  weathers !! k = Some v -> v ∈ ["clear"; "cloudy"; "rainy"; "foggy"; "snowy"].
Proof. unfold weathers. menu_values. Qed.

Ltac run_turn :=
  unfold configure_turn, select, mbind, M_bind, mret, M_ret, input,
    modify_scene, with_scene;
  simpl.

Ltac turn_cases :=
  repeat (first [case_decide | case_match]; simplify_eq/=).

(** One turn leaves the components and the document alone and keeps a scene
    within the ranges and menus. *)
Lemma configure_turn_keeps (float_of_str : string -> option float) (w : World) :
  self_components (self (configure_turn float_of_str w).2) = self_components (self w)
  /\ self_current_prompt (self (configure_turn float_of_str w).2)
     = self_current_prompt (self w)
  /\ (scene_in_range (self_scene (self w)) ->
      scene_in_range (self_scene (self (configure_turn float_of_str w).2))).
Proof.
  destruct w as [[c s d] lines]. run_turn. unfold scene_in_range.
  turn_cases; (split; [done|]); (split; [done|]); try done; simpl;
    intros (? & ? & ? & ? & ? & ? & ? & ?);
    repeat match goal with
           | H : _ && _ = true |- _ => apply andb_true_iff in H as [? ?]
           end;
    repeat split; rewrite ?andb_true_iff;
    eauto using shots_values, angles_values, lights_values, times_values,
      weathers_values.
Qed.

Ltac reads_lines k :=
  eexists _, _, k; split; [reflexivity|]; split; [reflexivity|];
  first [discriminate 1 | intros _; by split].

(** A turn that returns has read a line, and perhaps up to two more; the
    turn that breaks the loop has read a line that strips to ["8"] and
    nothing else. A turn that raises has found the input at its end. *)
Lemma configure_turn_reads (float_of_str : string -> option float) (w : World) :
  match (configure_turn float_of_str w).1 with
  | Ok again =>
      exists (line : string) (rest : list string) (k : nat),
        stdin w = line :: rest
        /\ stdin (configure_turn float_of_str w).2 = drop k rest
        /\ (again = false -> strip line = "8" /\ k = 0%nat)
  | Raise e => e = EOFError /\ stdin (configure_turn float_of_str w).2 = []
  end.
Proof.
  destruct w as [[c s d] lines]. run_turn.
  destruct lines as [|line [|l2 [|l3 rest]]]; simpl; [done|..];
    turn_cases;
    try match goal with e : exn |- _ => by destruct e end;
    first [ done | reads_lines 0%nat | reads_lines 1%nat | reads_lines 2%nat ].
Qed.

Lemma configure_turn_shorter (float_of_str : string -> option float)
    (w w' : World) (again : bool) :
  configure_turn float_of_str w = (Ok again, w') ->
  (length (stdin w') < length (stdin w))%nat
  /\ (forall line : string, line ∈ stdin w' -> line ∈ stdin w).
Proof.
  intros Hturn. pose proof (configure_turn_reads float_of_str w) as Hreads.
  rewrite Hturn in Hreads. simpl in Hreads.
  destruct Hreads as (line & rest & k & Hw & Hw' & _). rewrite Hw, Hw'. split.
  - rewrite length_drop. simpl. lia.
  - intros l Hl. apply elem_of_cons. right.
    apply list_elem_of_lookup in Hl as [i Hi]. rewrite lookup_drop in Hi.
    by eapply list_elem_of_lookup_2.
Qed.

(** The loop has come to its end within one turn more than there are
    lines. *)
Lemma configure_scene_turns_enough (float_of_str : string -> option float)
    (turns : nat) (w : World) :
  (length (stdin w) < turns)%nat ->
  is_Some (configure_scene_turns float_of_str turns w).
Proof.
  revert w. induction turns as [|turns IH]; intros w Hlen; [lia|].
  simpl. destruct (configure_turn float_of_str w) as [[[]|e] w'] eqn:Hturn; [|done..].
  apply IH. apply configure_turn_shorter in Hturn as [Hshort _]. lia.
Qed.

Lemma configure_scene_unfold (float_of_str : string -> option float) (w : World) :
  configure_scene_turns float_of_str (S (length (stdin w))) w
  = Some (configure_scene float_of_str w).
Proof.
  unfold configure_scene.
  destruct (configure_scene_turns_enough float_of_str (S (length (stdin w))) w)
    as [r Hr]; [lia|].
  by rewrite Hr.
Qed.

(** What every turn keeps, the loop keeps. *)
Lemma configure_scene_turns_invariant (I : World -> Prop)
    (float_of_str : string -> option float) :
  (forall w : World, I w -> I (configure_turn float_of_str w).2) ->
  forall (turns : nat) (w : World) (r : result unit * World),
    I w -> configure_scene_turns float_of_str turns w = Some r -> I r.2.
Proof.
  intros Hturn. induction turns as [|turns IH]; intros w r Hw; [done|].
  simpl. specialize (Hturn w Hw).
  destruct (configure_turn float_of_str w) as [[[]|e] w']; simpl in Hturn.
  - by apply IH.
  - by intros [= <-].
  - by intros [= <-].
Qed.

(** [configure_scene], on any input and with any reading of numbers, leaves
    the components and the document alone, and a scene that was within the
    ranges and menus (field of view in [[20,120]], height at least 0,
    distance above 0, and the listed shot types, angles, lighting styles,
    times of day and weathers) is within them afterwards. *)
Theorem configure_scene_keeps_ranges
    (float_of_str : string -> option float) (w : World) :
  self_components (self (configure_scene float_of_str w).2) = self_components (self w)
  /\ self_current_prompt (self (configure_scene float_of_str w).2)
     = self_current_prompt (self w)
  /\ (scene_in_range (self_scene (self w)) ->
      scene_in_range (self_scene (self (configure_scene float_of_str w).2))).
Proof.
  pose proof (configure_scene_unfold float_of_str w) as Hrun.
  split; [|split].
  - apply (configure_scene_turns_invariant
             (fun w' => self_components (self w') = self_components (self w))
             float_of_str) with (w := w) in Hrun; [done| |done].
    intros w' <-. apply configure_turn_keeps.
  - apply (configure_scene_turns_invariant
             (fun w' => self_current_prompt (self w') = self_current_prompt (self w))
             float_of_str) with (w := w) in Hrun; [done| |done].
    intros w' <-. apply configure_turn_keeps.
  - intros Hrange.
    apply (configure_scene_turns_invariant
             (fun w' => scene_in_range (self_scene (self w')))
             float_of_str) with (w := w) in Hrun; [done| |done].
    intros w'. apply configure_turn_keeps.
Qed.

Lemma configure_scene_frame (float_of_str : string -> option float) (w : World) :
  self_components (self (configure_scene float_of_str w).2) = self_components (self w)
  /\ self_current_prompt (self (configure_scene float_of_str w).2)
     = self_current_prompt (self w).
Proof.
  pose proof (configure_scene_unfold float_of_str w) as Hrun.
  apply (configure_scene_turns_invariant
           (fun w' => self_components (self w') = self_components (self w)
                      /\ self_current_prompt (self w') = self_current_prompt (self w))
           float_of_str) with (w := w) in Hrun; [done| |done].
  intros w' [<- <-]. destruct (configure_turn_keeps float_of_str w') as (? & ? & _).
  done.
Qed.

Example default_scene_in_range : scene_in_range SceneConfig_default.
Proof.
  unfold scene_in_range. simpl. repeat split; try reflexivity; set_solver.
Qed.

Lemma configure_scene_turns_ends (float_of_str : string -> option float)
    (turns : nat) (w : World) (r : result unit * World) :
  configure_scene_turns float_of_str turns w = Some r ->
  match r.1 with
  | Ok _ => exists line : string, line ∈ stdin w /\ strip line = "8"
  | Raise e => e = EOFError /\ stdin r.2 = []
  end.
Proof.
  revert w. induction turns as [|turns IH]; intros w; [done|].
  simpl. pose proof (configure_turn_reads float_of_str w) as Hreads.
  destruct (configure_turn float_of_str w) as [[[]|e] w'] eqn:Hturn; simpl in Hreads.
  - intros Hrest. apply IH in Hrest.
    destruct r.1; [|done]. destruct Hrest as (line & Hin & H8).
    exists line. split; [|done].
    by apply (configure_turn_shorter _ _ _ _ Hturn).
  - intros [= <-]. simpl.
    destruct Hreads as (line & rest & k & Hw & _ & Hbreak).
    exists line. rewrite Hw. split; [apply list_elem_of_here|].
    destruct (Hbreak eq_refl) as [H8 _]. exact H8.
  - by intros [= <-].
Qed.

(** [configure_scene] always comes to an end: it returns only after
    reading a line that strips to ["8"], and on an input without such a
    line it raises [EOFError] with the input used up. *)
Theorem configure_scene_ends (float_of_str : string -> option float) (w : World) :
  is_Some (configure_scene_turns float_of_str (S (length (stdin w))) w)
  /\ ((configure_scene float_of_str w).1 = Ok tt ->
      exists line : string, line ∈ stdin w /\ strip line = "8")
  /\ ((forall line : string, line ∈ stdin w -> strip line <> "8") ->
      (configure_scene float_of_str w).1 = Raise EOFError
      /\ stdin (configure_scene float_of_str w).2 = []).
Proof.
  pose proof (configure_scene_unfold float_of_str w) as Hrun.
  split; [by rewrite Hrun|].
  apply configure_scene_turns_ends in Hrun. split.
  - intros Hok. by rewrite Hok in Hrun.
  - intros Hno8. destruct (configure_scene float_of_str w).1 as [[]|e].
    + destruct Hrun as (line & Hin & H8). by destruct (Hno8 line Hin).
    + destruct Hrun as [-> Hempty]. done.
Qed.

Lemma configure_turn_numbers (float_of_str : string -> option float) (w : World) :
  (camera_fov (self_scene (self (configure_turn float_of_str w).2))
     = camera_fov (self_scene (self w))
   \/ float_ge (camera_fov (self_scene (self (configure_turn float_of_str w).2))) 20
      && float_le (camera_fov (self_scene (self (configure_turn float_of_str w).2))) 120
      = true)
  /\ ((camera_height (self_scene (self (configure_turn float_of_str w).2))
        = camera_height (self_scene (self w))
      /\ camera_distance (self_scene (self (configure_turn float_of_str w).2))
        = camera_distance (self_scene (self w)))
     \/ float_ge (camera_height (self_scene (self (configure_turn float_of_str w).2))) 0
        && float_gt (camera_distance (self_scene (self (configure_turn float_of_str w).2))) 0
        = true)
  /\ lighting_intensity (self_scene (self (configure_turn float_of_str w).2))
     = lighting_intensity (self_scene (self w)).
Proof.
  destruct w as [[c s d] lines]. run_turn.
  turn_cases; auto.
Qed.

(** Whatever the scene was, after [configure_scene] the field of view is
    the one before or a value accepted by [20 <= fov <= 120]; height and
    distance are both as before or a pair accepted by
    [height >= 0 and distance > 0]; the lighting intensity is as before. *)
Theorem configure_scene_numbers (float_of_str : string -> option float) (w : World) :
  (camera_fov (self_scene (self (configure_scene float_of_str w).2))
     = camera_fov (self_scene (self w))
   \/ exists q : Q,
        camera_fov (self_scene (self (configure_scene float_of_str w).2)) = Finite q
        /\ (20 <= q <= 120)%Q)
  /\ ((camera_height (self_scene (self (configure_scene float_of_str w).2))
        = camera_height (self_scene (self w))
      /\ camera_distance (self_scene (self (configure_scene float_of_str w).2))
        = camera_distance (self_scene (self w)))
     \/ float_ge (camera_height (self_scene (self (configure_scene float_of_str w).2))) 0
        && float_gt (camera_distance (self_scene (self (configure_scene float_of_str w).2))) 0
        = true)
  /\ lighting_intensity (self_scene (self (configure_scene float_of_str w).2))
     = lighting_intensity (self_scene (self w)).
Proof.
  pose proof (configure_scene_unfold float_of_str w) as Hrun.
  apply (configure_scene_turns_invariant
           (fun w' =>
              (camera_fov (self_scene (self w')) = camera_fov (self_scene (self w))
               \/ float_ge (camera_fov (self_scene (self w'))) 20
                  && float_le (camera_fov (self_scene (self w'))) 120 = true)
              /\ ((camera_height (self_scene (self w')) = camera_height (self_scene (self w))
                   /\ camera_distance (self_scene (self w'))
                      = camera_distance (self_scene (self w)))
                  \/ float_ge (camera_height (self_scene (self w'))) 0
                     && float_gt (camera_distance (self_scene (self w'))) 0 = true)
              /\ lighting_intensity (self_scene (self w'))
                 = lighting_intensity (self_scene (self w)))
           float_of_str) with (w := w) in Hrun.
  - destruct Hrun as (Hfov & Hpos & Hint). split; [|done].
    destruct Hfov as [Hfov|Hfov]; [by left|right].
    by apply Lens.guard_finite.
  - intros w' (Hfov & Hpos & Hint).
    destruct (configure_turn_numbers float_of_str w') as (Tfov & Tpos & Tint).
    split; [|split].
    + destruct Tfov as [->|?]; auto.
    + destruct Tpos as [[-> ->]|?]; auto.
    + congruence.
  - auto.
Qed.

Example menu_session_configured :
  (configure_scene Samples.numbers Samples.menu_session).1 = Ok tt
  /\ stdin (configure_scene Samples.numbers Samples.menu_session).2 = ["left over"]
  /\ self_scene (self (configure_scene Samples.numbers Samples.menu_session).2)
     = with_time_of_day "night"
         (with_shot_type "close-up" (with_camera_fov (Finite 35) SceneConfig_default)).
Proof. vm_compute. repeat split; reflexivity. Qed.

Example nan_refused :
  self_scene (self (configure_scene Samples.numbers
                      {| self := init; stdin := ["1"; "nan"; "8"] |}).2)
  = SceneConfig_default.
Proof. vm_compute. reflexivity. Qed.

Lemma configure_scene_keeps_ranges_witness :
  scene_in_range
    (self_scene (self (configure_scene Samples.numbers Samples.menu_session).2)).
Proof.
  apply (configure_scene_keeps_ranges Samples.numbers Samples.menu_session).
  exact default_scene_in_range.
Defined.

Lemma configure_scene_ends_witness :
  (configure_scene Samples.numbers {| self := init; stdin := ["1"; "35"; "9"] |}).1
  = Raise EOFError.
Proof.
  apply (configure_scene_ends Samples.numbers
           {| self := init; stdin := ["1"; "35"; "9"] |}).
  simpl. intros line Hin.
  repeat (apply elem_of_cons in Hin as [->|Hin]; [vm_compute; discriminate|]).
  by apply elem_of_nil in Hin.
Defined.

End Configure.

(** ** Sessions of the command-line builder *)

Module Sessions.
Import Py simple_veo3_builder Observe PyFacts.

Lemma document_in_step_frame (b b' : Veo3PromptBuilder) :
  never_cleared (self_components b) (self_components b') ->
  self_current_prompt b' = self_current_prompt b ->
  document_in_step b -> document_in_step b'.
Proof.
  intros Hkeep Hdoc (Hdom & Hurls & Hids & Hcap).
  unfold document_in_step. rewrite Hdoc. repeat split; try done.
  destruct Hcap as [Hcap|[Hsub Hact]]; [by left|right].
  destruct Hkeep as (Ks & Ka & _). auto.
Qed.

Lemma document_in_step_build (b : Veo3PromptBuilder) :
  document_in_step b -> document_in_step (build_final_prompt b).
Proof.
  intros (Hdom & Hurls & Hids & Hcap).
  assert (Hkeys : forall k : string,
             is_Some (built b !! k) <-> is_Some (self_current_prompt b !! k)).
  { intros k. rewrite Assembler.built_lookup.
    assert (Hp : is_Some (self_current_prompt b !! "prompt")).
    { apply elem_of_dom. rewrite Hdom. vm_compute. done. }
    assert (Hf : is_Some (self_current_prompt b !! "file_name")).
    { apply elem_of_dom. rewrite Hdom. vm_compute. done. }
    assert (Hc : is_Some (self_current_prompt b !! "caption")).
    { apply elem_of_dom. rewrite Hdom. vm_compute. done. }
    repeat case_decide; subst; try done.
    destruct (truthy _ && truthy _); done. }
  fold (built b) in *. unfold document_in_step.
  change (self_current_prompt (build_final_prompt b)) with (built b).
  split; [|split; [|split]].
  - rewrite <- Hdom. apply set_eq. intros k. by rewrite !elem_of_dom.
  - by rewrite Assembler.built_other.
  - by rewrite Assembler.built_other.
  - rewrite Assembler.built_caption. simpl.
    destruct (truthy (subject (self_components b))) eqn:Hs,
             (truthy (action (self_components b))) eqn:Ha; simpl.
    + right. by rewrite <- !truthy_true.
    + destruct Hcap as [Hcap|[_ Hact]]; [by left|].
      apply truthy_true in Hact. congruence.
    + destruct Hcap as [Hcap|[Hsub _]]; [by left|].
      apply truthy_true in Hsub. congruence.
    + destruct Hcap as [Hcap|[Hsub _]]; [by left|].
      apply truthy_true in Hsub. congruence.
Qed.

Lemma reachable_in_step (b : Veo3PromptBuilder) :
  reachable b -> document_in_step b.
Proof.
  induction 1 as [|f w _ IH|w _ IH|w _ IH|b _ IH].
  - unfold document_in_step. repeat split; try (vm_compute; reflexivity). by left.
  - destruct (Configure.configure_scene_frame f w) as [Hc Hd].
    apply (document_in_step_frame (self w)); [|done|done].
    rewrite Hc. apply Prompting.never_cleared_refl.
  - destruct (Prompting.build_prompt_components_keeps w) as (Hk & _ & Hd).
    by apply (document_in_step_frame (self w)).
  - destruct (Prompting.suggest_frame w) as [_ Hd].
    apply (document_in_step_frame (self w)); [|done|done].
    apply Prompting.suggest_never_clears.
  - by apply document_in_step_build.
Qed.

(** In a session created by [__init__] and taken through [configure_scene],
    [build_prompt_components], [suggest_from_scene] and [build_final_prompt]
    in any order and on any input, the built document depends on the
    components and the scene only: it is the one a fresh document would
    give. Its keys are the five of [__init__], and [input_image_urls] and
    [input_ids] are empty lists. *)
Theorem reachable_build_from_inputs (b : Veo3PromptBuilder) :
  reachable b ->
  built b = built (with_current_prompt (self_current_prompt init) b)
  /\ dom (built b) = dom (self_current_prompt init)
  /\ built b !! "input_image_urls" = Some (VList [])
  /\ built b !! "input_ids" = Some (VList []).
Proof.
  intros Hreach.
  pose proof (reachable_in_step _ (reach_build _ Hreach)) as (Bdom & Burls & Bids & _).
  apply reachable_in_step in Hreach as (Hdom & Hurls & Hids & Hcap).
  split; [|done].
  apply map_eq. intros k. rewrite !Assembler.built_lookup. simpl.
  repeat case_decide; try done.
  - destruct (truthy (subject (self_components b))) eqn:Hs,
             (truthy (action (self_components b))) eqn:Ha; simpl; try done;
      (destruct Hcap as [->|[Hsub Hact]]; [vm_compute; reflexivity|]);
      apply truthy_true in Hsub, Hact; congruence.
  - destruct (decide (k = "input_image_urls")) as [->|?];
      [rewrite Hurls; vm_compute; reflexivity|].
    destruct (decide (k = "input_ids")) as [->|?];
      [rewrite Hids; vm_compute; reflexivity|].
    assert (Hout : self_current_prompt init !! k = None).
    { unfold init, dict. cbn [self_current_prompt foldl fst snd].
      rewrite !lookup_insert_ne by done. apply lookup_empty. }
    pose proof Hout as Hout'. apply not_elem_of_dom in Hout'.
    rewrite <- Hdom in Hout'. apply not_elem_of_dom in Hout'.
    rewrite Hout'. symmetry. exact Hout.
Qed.

Lemma reachable_build_from_inputs_witness :
  reachable (self (build_prompt_components Samples.typed_composition).2)
  /\ built (self (build_prompt_components Samples.typed_composition).2)
       !! "input_ids" = Some (VList []).
Proof.
  assert (Hreach : reachable (self (build_prompt_components Samples.typed_composition).2)).
  { apply reach_prompt. exact reach_init. }
  split; [exact Hreach|].
  destruct (reachable_build_from_inputs _ Hreach) as (_ & _ & _ & Hids).
  exact Hids.
Defined.


Example run_on_two_lines :
  (run Samples.numbers {| self := init; stdin := ["8"; "A cat"] |}).1 = Exited 1
  /\ self_current_prompt
       (self (run Samples.numbers {| self := init; stdin := ["8"; "A cat"] |}).2)
     = self_current_prompt init.
Proof. vm_compute. split; reflexivity. Qed.

End Sessions.

(** ** More facts about the built-ins *)

Module StringFacts.
Import Py PyFacts.

Lemma length_append (s t : string) :
  String.length (s +:+ t) = (String.length s + String.length t)%nat.
Proof. induction s as [|c s IH]; [done|]. rewrite app_cons. simpl. by rewrite IH. Qed.

(** Cancellation on the right. *)
Lemma app_cancel_r (s1 s2 t : string) : s1 +:+ t = s2 +:+ t -> s1 = s2.
Proof.
  revert s2. induction s1 as [|c s1 IH]; intros s2 Heq.
  - destruct s2 as [|c2 s2]; [done|]. apply (f_equal String.length) in Heq.
    rewrite !length_append in Heq. simpl in Heq. lia.
  - destruct s2 as [|c2 s2].
    + apply (f_equal String.length) in Heq.
      rewrite !length_append in Heq. simpl in Heq. lia.
    + rewrite !app_cons in Heq. injection Heq as -> Heq. f_equal. by apply IH.
Qed.

Lemma has_char_app (c : ascii) (s t : string) :
  has_char c (s +:+ t) = has_char c s || has_char c t.
Proof.
  induction s as [|a s IH]; [done|]. rewrite app_cons. simpl.
  by destruct (decide (c = a)).
Qed.

Lemma has_char_drop_char (c : ascii) (s : string) :
  has_char c (Spec.drop_char c s) = false.
Proof.
  induction s as [|a s IH]; [done|]. simpl.
  destruct (decide (c = a)) as [->|Hne]; [done|]. simpl.
  by destruct (decide (c = a)).
Qed.

Lemma has_char_drop_other (c d : ascii) (s : string) :
  c <> d -> has_char c (Spec.drop_char d s) = has_char c s.
Proof.
  intros Hne. induction s as [|a s IH]; [done|]. simpl.
  destruct (decide (d = a)) as [<-|Hda]; simpl.
  - by destruct (decide (c = d)).
  - by rewrite IH.
Qed.

Lemma drop_char_absent (c : ascii) (s : string) :
  has_char c s = false -> Spec.drop_char c s = s.
Proof.
  induction s as [|a s IH]; [done|]. simpl.
  destruct (decide (c = a)); [done|]. intros H. by rewrite IH.
Qed.

Lemma drop_char_fixed (c : ascii) (s : string) :
  Spec.drop_char c s = s <-> has_char c s = false.
Proof.
  split; [|apply drop_char_absent].
  intros <-. apply has_char_drop_char.
Qed.

Lemma startswith_app (sub r : string) : startswith sub (sub +:+ r) = true.
Proof.
  induction sub as [|c sub IH]; [done|]. rewrite app_cons. simpl.
  by destruct (decide (c = c)).
Qed.

Lemma index_of_here (sub r : string) : index_of sub (sub +:+ r) = Some 0%nat.
Proof.
  destruct sub as [|c sub]; [by destruct r|].
  rewrite app_cons. cbn [index_of]. rewrite <- app_cons. by rewrite startswith_app.
Qed.

(** A text without the first character of [sub] is skipped whole. *)
Lemma index_of_skip (c : ascii) (sub p r : string) :
  has_char c p = false ->
  index_of (String c sub) (p +:+ r)
  = (fun i => (String.length p + i)%nat) <$> index_of (String c sub) r.
Proof.
  intros Hp. induction p as [|a p IH].
  - change ("" +:+ r) with r. by destruct (index_of _ r).
  - simpl in Hp. destruct (decide (c = a)) as [|Hne]; [done|].
    rewrite app_cons. cbn [index_of startswith].
    destruct (decide (c = a)); [done|]. rewrite (IH Hp).
    by destruct (index_of (String c sub) r).
Qed.

Lemma drop_chars_app (p r : string) : drop_chars (String.length p) (p +:+ r) = r.
Proof. induction p as [|a p IH]; [by destruct r|]. by rewrite app_cons. Qed.

Lemma drop_chars_add (n m : nat) (s : string) :
  drop_chars (n + m) s = drop_chars m (drop_chars n s).
Proof.
  revert s. induction n as [|n IH]; intros s; [done|].
  destruct s as [|a s]; simpl; [by destruct m|]. apply IH.
Qed.

Lemma take_chars_app (p r : string) : take_chars (String.length p) (p +:+ r) = p.
Proof.
  induction p as [|a p IH]; [by destruct r|]. rewrite app_cons. simpl. by rewrite IH.
Qed.

(** Joining strings that are not empty gives the empty string only for the
    empty list. *)
Lemma join_empty (sep : string) (l : list string) :
  Forall (fun x => x <> "") l -> (join sep l = "" <-> l = []).
Proof.
  intros Hl. split; [|by intros ->].
  destruct Hl as [|x l Hx Hl]; [done|].
  destruct x as [|c x]; [done|]. destruct l; simpl; [done|].
  by rewrite app_cons.
Qed.

Lemma join_cons (sep a : string) (l : list string) :
  l <> [] -> join sep (a :: l) = a +:+ sep +:+ join sep l.
Proof. by destruct l. Qed.

(** Appending to a joined list appends to its last string. *)
Lemma join_snoc_app (sep : string) (l : list string) (x y : string) :
  join sep (l ++ [x]) +:+ y = join sep (l ++ [x +:+ y]).
Proof.
  induction l as [|a l IH]; [done|].
  rewrite <- !app_comm_cons, !join_cons by (by destruct l).
  by rewrite !app_assoc, IH.
Qed.

(** A caption made of the first eight words of a text and an ellipsis has
    between one and eight words. *)
Lemma ellipsis_words (text : string) :
  (1 <= length (split (join " " (take 8 (split text)) +:+ "...")) <= 8)%nat.
Proof.
  assert (Htok : Forall Spec.token (take 8 (split text)))
    by apply Forall_take, split_tokens.
  assert (Hlen : (length (take 8 (split text)) <= 8)%nat)
    by (rewrite length_take; lia).
  destruct (take 8 (split text)) as [|w ws _] using rev_ind.
  - vm_compute. lia.
  - rewrite join_snoc_app, split_join.
    + rewrite length_app in *. simpl in *. lia.
    + apply Forall_app in Htok as [Hws Hw]. apply Forall_app. split; [done|].
      apply Forall_singleton. apply Forall_singleton in Hw as [Hne Hspace].
      split.
      * destruct w; [done|]. by rewrite app_cons.
      * by rewrite no_space_app, Hspace.
Qed.

End StringFacts.

(** ** File names across the three programs *)

Module FileNames.
Import Py Observe PyFacts StringFacts.

Lemma simple_file_name (b : simple_veo3_builder.Veo3PromptBuilder) :
  file_name_of (built b)
  = Some (Spec.drop_char " " (Spec.drop_char "-"
            (simple_veo3_builder.shot_type (simple_veo3_builder.self_scene b)))
          +:+ "-" +:+ simple_veo3_builder.time_of_day (simple_veo3_builder.self_scene b)
          +:+ ".mp4").
Proof.
  unfold file_name_of. rewrite Assembler.built_file_name.
  change " " with (String " "%char "") at 1.
  change "-" with (String "-"%char "") at 1.
  by rewrite !replace_char_empty.
Qed.

Lemma demo_file_name (sc : demo_veo3_builder.SceneConfig)
    (c : demo_veo3_builder.PromptComponents) :
  file_name_of (demo_veo3_builder.build_veo3_json sc c)
  = Some (Spec.drop_char " " (demo_veo3_builder.shot_type sc)
          +:+ "-" +:+ demo_veo3_builder.time_of_day sc +:+ ".mp4").
Proof.
  unfold file_name_of, demo_veo3_builder.build_veo3_json, dict.
  cbn [foldl fst snd]. rewrite !lookup_insert_ne by done. rewrite lookup_insert_eq.
  change " " with (String " "%char "") at 1.
  by rewrite replace_char_empty, !app_assoc.
Qed.

(** In a file name of the command-line builder the part before the first
    hyphen holds no space and no hyphen, so the first hyphen is the
    separator and the time of day can be read back after it. *)
Theorem simple_file_name_separator (b : simple_veo3_builder.Veo3PromptBuilder) :
  exists stem : string,
    file_name_of (built b)
      = Some (stem +:+ "-"
              +:+ simple_veo3_builder.time_of_day (simple_veo3_builder.self_scene b)
              +:+ ".mp4")
    /\ has_char " " stem = false
    /\ has_char "-" stem = false
    /\ index_of "-" (stem +:+ "-"
                     +:+ simple_veo3_builder.time_of_day (simple_veo3_builder.self_scene b)
                     +:+ ".mp4")
       = Some (String.length stem)
    /\ drop_chars (String.length stem + 1)
         (stem +:+ "-"
          +:+ simple_veo3_builder.time_of_day (simple_veo3_builder.self_scene b)
          +:+ ".mp4")
       = simple_veo3_builder.time_of_day (simple_veo3_builder.self_scene b) +:+ ".mp4".
Proof.
  eexists. split; [apply simple_file_name|].
  assert (Hh : has_char "-" (Spec.drop_char " " (Spec.drop_char "-"
                 (simple_veo3_builder.shot_type (simple_veo3_builder.self_scene b))))
               = false).
  { rewrite has_char_drop_other by done. apply has_char_drop_char. }
  split; [apply has_char_drop_char|]. split; [exact Hh|]. split.
  - change "-" with (String "-"%char "") at 1.
    rewrite (index_of_skip _ _ _ _ Hh).
    change (String "-"%char "") with "-".
    rewrite index_of_here. simpl. f_equal. lia.
  - by rewrite drop_chars_add, drop_chars_app.
Qed.

(** For the same shot type and time of day, the command-line builder and
    the demonstration script give the same file name exactly when the shot
    type has no hyphen. *)
Theorem simple_and_demo_file_names
    (b : simple_veo3_builder.Veo3PromptBuilder)
    (sc : demo_veo3_builder.SceneConfig) (c : demo_veo3_builder.PromptComponents) :
  demo_veo3_builder.shot_type sc
    = simple_veo3_builder.shot_type (simple_veo3_builder.self_scene b) ->
  demo_veo3_builder.time_of_day sc
    = simple_veo3_builder.time_of_day (simple_veo3_builder.self_scene b) ->
  file_name_of (built b) = file_name_of (demo_veo3_builder.build_veo3_json sc c)
  <-> has_char "-" (simple_veo3_builder.shot_type (simple_veo3_builder.self_scene b))
      = false.
Proof.
  intros Hshot Htime. rewrite simple_file_name, demo_file_name, Hshot, Htime.
  split.
  - intros [= Heq]. apply app_cancel_r in Heq.
    rewrite <- (has_char_drop_other "-" " ") by done. rewrite <- Heq.
    rewrite has_char_drop_other by done. apply has_char_drop_char.
  - intros Hno. by rewrite (drop_char_absent "-" _ Hno).
Qed.

Lemma simple_and_demo_file_names_witness :
  file_name_of (built simple_veo3_builder.init)
  = file_name_of (demo_veo3_builder.build_veo3_json
                    (demo_veo3_builder.Build_SceneConfig (Finite 85) "medium"
                       "low angle" "dramatic" "day" "rainy")
                    demo_veo3_builder.PromptComponents_default).
Proof.
  apply (simple_and_demo_file_names simple_veo3_builder.init
           (demo_veo3_builder.Build_SceneConfig (Finite 85) "medium"
              "low angle" "dramatic" "day" "rainy")
           demo_veo3_builder.PromptComponents_default);
    reflexivity.
Defined.

End FileNames.

(** ** The demonstration script *)

Module Demo.
Import Py demo_veo3_builder PyFacts StringFacts.

(** The mood [analyze_scene_setup] prints is the string listed for the
    triple of lighting, time of day and weather, and
    ["<lighting_type> <time_of_day> mood"], without the weather, for a
    triple that is not listed. *)
Theorem mood_table (sc : SceneConfig) :
  (lighting_type sc = "dramatic" -> time_of_day sc = "dusk" -> weather sc = "rainy" ->
     (analyze_scene_setup sc).2
     = "Intense, moody atmosphere with high contrast shadows and reflective surfaces")
  /\ (lighting_type sc = "natural" -> time_of_day sc = "day" -> weather sc = "clear" ->
     (analyze_scene_setup sc).2 = "Bright, clean aesthetic with even lighting")
  /\ (lighting_type sc = "soft" -> time_of_day sc = "dawn" -> weather sc = "foggy" ->
     (analyze_scene_setup sc).2 = "Ethereal, dreamlike quality with diffused light")
  /\ ((lighting_type sc, time_of_day sc, weather sc)
        ∉ [("dramatic", "dusk", "rainy"); ("natural", "day", "clear");
           ("soft", "dawn", "foggy")] ->
     (analyze_scene_setup sc).2
     = lighting_type sc +:+ " " +:+ time_of_day sc +:+ " mood").
Proof.
  assert (Hmood : (analyze_scene_setup sc).2
                  = get mood_combinations (lighting_type sc, time_of_day sc, weather sc)
                      (lighting_type sc +:+ " " +:+ time_of_day sc +:+ " mood")).
  { unfold analyze_scene_setup. by repeat destruct (float_lt _ _). }
  rewrite Hmood. unfold get.
  split; [|split; [|split]]; try (intros -> -> ->; vm_compute; reflexivity).
  intros Hnot. unfold mood_combinations, dict. cbn [foldl fst snd].
  rewrite !lookup_insert_ne, lookup_empty; [done|..];
    intros Heq; apply Hnot; rewrite <- Heq; set_solver.
Qed.

Lemma mood_table_witness :
  (analyze_scene_setup SceneConfig_default).2
    = "Intense, moody atmosphere with high contrast shadows and reflective surfaces"
  /\ (analyze_scene_setup
        (Build_SceneConfig (Finite 85) "medium" "low angle" "dramatic" "dusk" "clear")).2
     = "dramatic dusk mood".
Proof.
  split.
  - apply (mood_table SceneConfig_default); reflexivity.
  - destruct (mood_table
                (Build_SceneConfig (Finite 85) "medium" "low angle" "dramatic" "dusk" "clear"))
      as (_ & _ & _ & Hother).
    apply Hother. simpl. intros Hin.
    repeat (apply elem_of_cons in Hin as [Heq|Hin]; [discriminate Heq|]).
    by apply elem_of_nil in Hin.
Defined.

Example main_document :
  (analyze_scene_setup SceneConfig_default).1
    = ("Ultra Wide (14-24mm)", "Dramatic perspective, high distortion")
  /\ build_veo3_json SceneConfig_default PromptComponents_default !! "file_name"
     = Some (VStr "medium-dusk.mp4")
  /\ build_veo3_json SceneConfig_default PromptComponents_default !! "caption"
     = Some (VStr "A woman in her late 20s, wearing an...").
Proof. vm_compute. repeat split; reflexivity. Qed.

Lemma demo_lookups (sc : SceneConfig) (c : PromptComponents) :
  build_veo3_json sc c !! "prompt"
    = Some (VStr (join ". "
         [ "Subject: " +:+ subject c; "Action: " +:+ action c;
           "Scene: " +:+ scene c; "Camera: " +:+ camera c;
           "Composition: " +:+ composition c; "Ambiance: " +:+ ambiance c;
           "Audio: " +:+ audio c; "Style: " +:+ style c ]))
  /\ build_veo3_json sc c !! "caption"
    = Some (VStr (join " " (take 8 (split
         (replace "Action: " "" (replace "Subject: " "" (join ". "
            [ "Subject: " +:+ subject c; "Action: " +:+ action c;
              "Scene: " +:+ scene c; "Camera: " +:+ camera c;
              "Composition: " +:+ composition c; "Ambiance: " +:+ ambiance c;
              "Audio: " +:+ audio c; "Style: " +:+ style c ]))))) +:+ "..."))
  /\ build_veo3_json sc c !! "input_image_urls" = Some (VList [])
  /\ build_veo3_json sc c !! "input_ids" = Some (VList [])
  /\ (forall k : string,
        k ∉ ["prompt"; "caption"; "file_name"; "input_image_urls"; "input_ids"] ->
        build_veo3_json sc c !! k = None).
Proof.
  unfold build_veo3_json, dict. cbn [foldl fst snd].
  split; [by rewrite !lookup_insert_ne, lookup_insert_eq by done|].
  split; [by rewrite !lookup_insert_ne, lookup_insert_eq by done|].
  split; [by rewrite !lookup_insert_ne, lookup_insert_eq by done|].
  split; [by rewrite lookup_insert_eq|].
  intros k Hk. rewrite !lookup_insert_ne, lookup_empty; [done|..];
    intros <-; apply Hk; set_solver.
Qed.

(** The document of the demonstration script has the five keys and no
    other, its two lists are empty, and its caption has between one and
    eight words, whatever the components and the scene. *)
Theorem demo_document_shape (sc : SceneConfig) (c : PromptComponents) :
  dom (build_veo3_json sc c)
    = list_to_set ["prompt"; "caption"; "file_name"; "input_image_urls"; "input_ids"]
  /\ build_veo3_json sc c !! "input_image_urls" = Some (VList [])
  /\ build_veo3_json sc c !! "input_ids" = Some (VList [])
  /\ exists caption : string,
       build_veo3_json sc c !! "caption" = Some (VStr caption)
       /\ (1 <= length (split caption) <= 8)%nat.
Proof.
  destruct (demo_lookups sc c) as (_ & Hcap & Hurls & Hids & _).
  split; [|split; [done|split; [done|]]].
  - unfold build_veo3_json, dict. cbn [foldl fst snd].
    rewrite !dom_insert_L, dom_empty_L. set_solver.
  - eexists. split; [exact Hcap|]. apply ellipsis_words.
Qed.

End Demo.

(** ** The prompt of the dashboard and of the command-line builder *)

Module Prompts.
Import Py simple_veo3_builder veo3_prompt_builder Observe PyFacts StringFacts.

Lemma dashboard_prompt (st : session_state) :
  current_prompt (update_prompt_from_components st) !! "prompt"
  = Some (VStr (join ". " (prompt_parts (prompt_components st)))).
Proof. unfold update_prompt_from_components. simpl. apply lookup_insert_eq. Qed.

Ltac field_cases c :=
  destruct (subject c), (action c), (scene c), (camera c), (ambiance c),
           (audio c), (style c).

(** When the composition field holds what the command-line builder
    synthesizes from the scene, the dashboard and the command-line builder
    assemble the same prompt. *)
Theorem dashboard_and_simple_prompts (st : session_state) (b : Veo3PromptBuilder) :
  prompt_components st = self_components b ->
  composition (self_components b)
    = (if truthy (shot_type (self_scene b))
       then shot_type (self_scene b) +:+ " shot, " +:+ camera_angle (self_scene b)
       else "") ->
  current_prompt (update_prompt_from_components st) !! "prompt"
  = built b !! "prompt".
Proof.
  intros Hc Hcomp. rewrite dashboard_prompt, Assembler.built_prompt, Hc.
  do 3 f_equal. unfold prompt_parts, segments. rewrite Hcomp.
  destruct (shot_type (self_scene b)) as [|a shot]; cbn [truthy];
    field_cases (self_components b); reflexivity.
Qed.

Lemma dashboard_and_simple_prompts_witness :
  current_prompt (update_prompt_from_components
      {| prompt_components :=
           setattr "composition" "medium shot, eye-level" PromptComponents_default;
         scene_config := SceneConfig_default;
         current_prompt := self_current_prompt init |}) !! "prompt"
  = built (with_components
             (setattr "composition" "medium shot, eye-level" PromptComponents_default)
             init) !! "prompt".
Proof.
  apply (dashboard_and_simple_prompts
           {| prompt_components :=
                setattr "composition" "medium shot, eye-level" PromptComponents_default;
              scene_config := SceneConfig_default;
              current_prompt := self_current_prompt init |}
           (with_components
              (setattr "composition" "medium shot, eye-level" PromptComponents_default)
              init));
    reflexivity.
Defined.

Lemma prompt_parts_filled (c : PromptComponents) :
  Forall (fun x => x <> "") (prompt_parts c).
Proof.
  unfold prompt_parts.
  destruct (composition c); field_cases c; cbn [truthy app];
    repeat (apply List.Forall_cons; [done|]); apply List.Forall_nil.
Qed.

Lemma prompt_parts_nil (c : PromptComponents) :
  prompt_parts c = []
  <-> subject c = "" /\ action c = "" /\ scene c = "" /\ camera c = ""
      /\ composition c = "" /\ ambiance c = "" /\ audio c = "" /\ style c = "".
Proof.
  unfold prompt_parts.
  destruct (composition c); field_cases c; cbn [truthy app];
    (split; [intros H; try discriminate H; done
            | intros (? & ? & ? & ? & ? & ? & ? & ?); try done]).
Qed.

Lemma segments_filled (b : Veo3PromptBuilder) :
  Forall (fun x => x <> "") (List.filter truthy (segments b)).
Proof.
  apply Forall_forall. intros x Hx. apply list_elem_of_In, filter_In in Hx as [_ Hx].
  by apply truthy_true.
Qed.

Lemma segments_nil (b : Veo3PromptBuilder) :
  List.filter truthy (segments b) = []
  <-> subject (self_components b) = "" /\ action (self_components b) = ""
      /\ scene (self_components b) = "" /\ camera (self_components b) = ""
      /\ shot_type (self_scene b) = "" /\ ambiance (self_components b) = ""
      /\ audio (self_components b) = "" /\ style (self_components b) = "".
Proof.
  unfold segments.
  destruct (shot_type (self_scene b)); field_cases (self_components b);
    cbn [truthy List.filter];
    (split; [intros H; try discriminate H; done
            | intros (? & ? & ? & ? & ? & ? & ? & ?); try done]).
Qed.

(** The dashboard's prompt is empty exactly when all eight fields are
    empty; the command-line builder's exactly when the seven fields it
    reads and the scene's shot type are empty. *)
Theorem prompt_empty (st : session_state) (b : Veo3PromptBuilder) :
  (current_prompt (update_prompt_from_components st) !! "prompt" = Some (VStr "")
   <-> subject (prompt_components st) = "" /\ action (prompt_components st) = ""
       /\ scene (prompt_components st) = "" /\ camera (prompt_components st) = ""
       /\ composition (prompt_components st) = "" /\ ambiance (prompt_components st) = ""
       /\ audio (prompt_components st) = "" /\ style (prompt_components st) = "")
  /\ (built b !! "prompt" = Some (VStr "")
      <-> subject (self_components b) = "" /\ action (self_components b) = ""
          /\ scene (self_components b) = "" /\ camera (self_components b) = ""
          /\ shot_type (self_scene b) = "" /\ ambiance (self_components b) = ""
          /\ audio (self_components b) = "" /\ style (self_components b) = "").
Proof.
  split.
  - rewrite dashboard_prompt. split; intros H.
    + apply prompt_parts_nil,
        (join_empty ". " _ (prompt_parts_filled (prompt_components st))).
      congruence.
    + apply prompt_parts_nil in H. by rewrite H.
  - rewrite Assembler.built_prompt. split; intros H.
    + apply segments_nil, (join_empty ". " _ (segments_filled b)). congruence.
    + apply segments_nil in H. by rewrite H.
Qed.

(** With all eight fields filled in, the dashboard and the demonstration
    script assemble the same prompt from the same components. *)
Theorem dashboard_and_demo_prompts
    (st : session_state) (sc : demo_veo3_builder.SceneConfig) :
  subject (prompt_components st) <> "" -> action (prompt_components st) <> "" ->
  scene (prompt_components st) <> "" -> camera (prompt_components st) <> "" ->
  composition (prompt_components st) <> "" -> ambiance (prompt_components st) <> "" ->
  audio (prompt_components st) <> "" -> style (prompt_components st) <> "" ->
  current_prompt (update_prompt_from_components st) !! "prompt"
  = demo_veo3_builder.build_veo3_json sc (Convert.to_demo (prompt_components st))
      !! "prompt".
Proof.
  intros H1 H2 H3 H4 H5 H6 H7 H8.
  destruct (Demo.demo_lookups sc (Convert.to_demo (prompt_components st))) as [-> _].
  rewrite dashboard_prompt. unfold prompt_parts. simpl.
  apply truthy_true in H1, H2, H3, H4, H5, H6, H7, H8.
  by rewrite H1, H2, H3, H4, H5, H6, H7, H8.
Qed.

Lemma dashboard_and_demo_prompts_witness :
  current_prompt (update_prompt_from_components
      {| prompt_components :=
           {| subject := "A cat"; action := "jumps"; scene := "a roof";
              style := "noir"; camera := "static"; composition := "wide";
              ambiance := "dusk light"; audio := "wind" |};
         scene_config := SceneConfig_default;
         current_prompt := self_current_prompt init |}) !! "prompt"
  = Some (VStr "Subject: A cat. Action: jumps. Scene: a roof. Camera: static. Composition: wide. Ambiance: dusk light. Audio: wind. Style: noir").
Proof.
  rewrite (dashboard_and_demo_prompts
             {| prompt_components :=
                  {| subject := "A cat"; action := "jumps"; scene := "a roof";
                     style := "noir"; camera := "static"; composition := "wide";
                     ambiance := "dusk light"; audio := "wind" |};
                scene_config := SceneConfig_default;
                current_prompt := self_current_prompt init |}
             demo_veo3_builder.SceneConfig_default); try discriminate.
  vm_compute. reflexivity.
Defined.

End Prompts.

(** ** Replies of the assistant in [veo3_prompt_builder.py] *)

Module Replies.
Import Py veo3_prompt_builder PyFacts StringFacts.

Lemma contains_index_of (sub s : string) (i : nat) :
  index_of sub s = Some i -> contains sub s = true.
Proof. unfold contains. by intros ->. Qed.

Lemma find_from_start (sub s : string) (i : nat) :
  index_of sub s = Some i -> find sub s 0 = Z.of_nat i.
Proof.
  intros Hi. unfold find. rewrite (proj2 (Z.ltb_ge _ _)) by lia.
  simpl. by rewrite Hi.
Qed.

(** A reply that has, after text without a backquote, a block opened by the
    fence with the word json and closed by a fence, its body not empty and
    without a backquote, hands [json.loads] that body, stripped; what comes
    after the closing fence plays no part. *)
Theorem json_block_fenced (before body after : string) :
  has_char "`" before = false ->
  has_char "`" body = false ->
  body <> "" ->
  json_block (before +:+ "```json" +:+ body +:+ "```" +:+ after) = Some (strip body).
Proof.
  intros Hbefore Hbody Hne.
  set (rest := body +:+ "```" +:+ after).
  assert (Hopen : index_of "```json" (before +:+ "```json" +:+ rest)
                  = Some (String.length before)).
  { change "```json" with (String "`"%char "``json") at 1.
    rewrite (index_of_skip _ _ _ _ Hbefore).
    change (String "`"%char "``json") with "```json".
    rewrite index_of_here. simpl. f_equal. lia. }
  assert (Hclose : index_of "```" rest = Some (String.length body)).
  { unfold rest. change "```" with (String "`"%char "``") at 1.
    rewrite (index_of_skip _ _ _ _ Hbody).
    change (String "`"%char "``") with "```".
    rewrite index_of_here. simpl. f_equal. lia. }
  assert (Hdrop : drop_chars (String.length before + 7)
                    (before +:+ "```json" +:+ rest) = rest).
  { rewrite drop_chars_add, drop_chars_app. reflexivity. }
  assert (Hlen : String.length (before +:+ "```json" +:+ rest)
                 = (String.length before + 7 + String.length rest)%nat).
  { rewrite !length_append. simpl. lia. }
  assert (Hpos : (0 < String.length body)%nat) by (destruct body; [done|simpl; lia]).
  unfold json_block. rewrite (contains_index_of _ _ _ Hopen).
  rewrite (find_from_start _ _ _ Hopen).
  unfold find, slice.
  replace (Z.to_nat (Z.of_nat (String.length before) + 7))
    with (String.length before + 7)%nat by lia.
  rewrite Hdrop, Hclose, Hlen.
  rewrite (proj2 (Z.ltb_ge (Z.of_nat (String.length before + 7 + String.length rest))
                           (Z.of_nat (String.length before) + 7))) by lia.
  rewrite (proj2 (Z.ltb_lt _ _)) by lia.
  replace (Z.to_nat _) with (String.length body) by lia.
  unfold rest. by rewrite take_chars_app.
Qed.

Lemma json_block_fenced_witness :
  json_block ("Here it is: " +:+ "```json" +:+ " {} " +:+ "```" +:+ " Anything else?")
  = Some "{}".
Proof.
  rewrite (json_block_fenced "Here it is: " " {} " " Anything else?");
    [reflexivity | reflexivity | reflexivity | discriminate].
Defined.



Section merging.
Variable json_loads : string -> option value.


End merging.



End Replies.

(** ** The dashboard's session and its button *)

Module Dashboard.
Import Py simple_veo3_builder veo3_prompt_builder Observe PyFacts StringFacts.

Lemma setdefault_lookup (key k : string) (v : entry) (ss : gmap string entry) :
  setdefault key v ss !! k
  = if decide (k = key) then Some (default v (ss !! key)) else ss !! k.
Proof.
  unfold setdefault. destruct (ss !! key) eqn:Hkey.
  - case_decide; [by subst|done].
  - rewrite lookup_insert. repeat case_decide; by subst.
Qed.

Lemma setdefault_present (key : string) (v e : entry) (ss : gmap string entry) :
  ss !! key = Some e -> setdefault key v ss = ss.
Proof. unfold setdefault. by intros ->. Qed.

(** [initialize_session_state] keeps every entry the session already has,
    gives it the four entries it needs, and so changes nothing when run
    again, as it is at every rerun of the script. *)
Theorem initialize_session_state_keeps (ss : gmap string entry) :
  (forall (k : string) (e : entry),
     ss !! k = Some e -> initialize_session_state_in ss !! k = Some e)
  /\ (forall k : string,
       k ∈ ["messages"; "prompt_components"; "scene_config"; "current_prompt"] ->
       is_Some (initialize_session_state_in ss !! k))
  /\ (forall k : string,
       k ∉ ["messages"; "prompt_components"; "scene_config"; "current_prompt"] ->
       initialize_session_state_in ss !! k = ss !! k)
  /\ initialize_session_state_in (initialize_session_state_in ss)
     = initialize_session_state_in ss.
Proof.
  assert (Hfour : forall ss' : gmap string entry, forall k : string,
            k ∈ ["messages"; "prompt_components"; "scene_config"; "current_prompt"] ->
            is_Some (initialize_session_state_in ss' !! k)).
  { intros ss' k Hk. unfold initialize_session_state_in. rewrite !setdefault_lookup.
    repeat (apply elem_of_cons in Hk as [->|Hk]; [by repeat case_decide|]).
    by apply elem_of_nil in Hk. }
  split; [|split; [apply Hfour|split]].
  - intros k e Hk. unfold initialize_session_state_in. rewrite !setdefault_lookup.
    repeat case_decide; subst; rewrite ?setdefault_lookup; repeat case_decide;
      try done; by rewrite Hk.
  - intros k Hk. unfold initialize_session_state_in. rewrite !setdefault_lookup.
    repeat case_decide; subst; try done; exfalso; apply Hk; set_solver.
  - set (ss1 := initialize_session_state_in ss).
    destruct (Hfour ss "messages") as [e1 H1]; [set_solver|].
    destruct (Hfour ss "prompt_components") as [e2 H2]; [set_solver|].
    destruct (Hfour ss "scene_config") as [e3 H3]; [set_solver|].
    destruct (Hfour ss "current_prompt") as [e4 H4]; [set_solver|].
    fold ss1 in H1, H2, H3, H4. unfold initialize_session_state_in at 1.
    by rewrite (setdefault_present _ _ _ _ H1), (setdefault_present _ _ _ _ H2),
      (setdefault_present _ _ _ _ H3), (setdefault_present _ _ _ _ H4).
Qed.

Example fresh_session_entries :
  initialize_session_state_in ∅ !! "prompt_components"
    = Some (Components (prompt_components initialize_session_state))
  /\ initialize_session_state_in ∅ !! "scene_config"
    = Some (Scene (scene_config initialize_session_state))
  /\ initialize_session_state_in ∅ !! "current_prompt"
    = Some (Prompt (current_prompt initialize_session_state)).
Proof. vm_compute. repeat split; reflexivity. Qed.

(** The button on a document whose prompt is a string: with an empty prompt
    it does nothing; otherwise it leaves components, scene and prompt as
    they are, stores a caption of one to eight words, and stores as file
    name the shot type as it is, a hyphen, the time of day and [".mp4"]. *)
Theorem auto_generate_button (st : session_state) (p : string) :
  current_prompt st !! "prompt" = Some (VStr p) ->
  (p = "" -> auto_generate st = Some st)
  /\ (p <> "" ->
      exists (st' : session_state) (caption : string),
        auto_generate st = Some st'
        /\ prompt_components st' = prompt_components st
        /\ scene_config st' = scene_config st
        /\ current_prompt st' !! "prompt" = Some (VStr p)
        /\ current_prompt st' !! "caption" = Some (VStr caption)
        /\ (1 <= length (split caption) <= 8)%nat
        /\ file_name_of (current_prompt st')
           = Some (shot_type (scene_config st) +:+ "-"
                   +:+ time_of_day (scene_config st) +:+ ".mp4")).
Proof.
  intros Hp. unfold auto_generate, get. rewrite Hp. simpl. split.
  - by intros ->.
  - intros Hne. apply truthy_true in Hne. rewrite Hne.
    eexists _, _. split; [reflexivity|]. simpl.
    split; [done|]. split; [done|].
    split; [by rewrite !lookup_insert_ne|].
    split; [by rewrite lookup_insert_ne, lookup_insert_eq|].
    split; [apply ellipsis_words|].
    unfold file_name_of. by rewrite lookup_insert_eq.
Qed.

Lemma auto_generate_button_witness :
  exists (st' : session_state) (caption : string),
    auto_generate (update_prompt_from_components initialize_session_state) = Some st'
    /\ current_prompt st' !! "caption" = Some (VStr caption)
    /\ file_name_of (current_prompt st') = Some "medium-day.mp4".
Proof.
  destruct (auto_generate_button
              (update_prompt_from_components initialize_session_state)
              "Style: cinematic, photorealistic") as [_ Hfull].
  - vm_compute. reflexivity.
  - destruct Hfull as (st' & caption & Hst' & _ & _ & _ & Hcap & _ & Hfile);
      [discriminate|].
    exists st', caption. split; [exact Hst'|]. split; [exact Hcap|].
    rewrite Hfile. reflexivity.
Defined.

Lemma auto_generate_file_name (st st' : session_state) (p : string) :
  current_prompt st !! "prompt" = Some (VStr p) -> p <> "" ->
  auto_generate st = Some st' ->
  file_name_of (current_prompt st')
  = Some (shot_type (scene_config st) +:+ "-"
          +:+ time_of_day (scene_config st) +:+ ".mp4").
Proof.
  intros Hp Hne. unfold auto_generate, get. rewrite Hp. simpl.
  apply truthy_true in Hne. rewrite Hne. intros [= <-]. simpl.
  unfold file_name_of. by rewrite lookup_insert_eq.
Qed.

(** For the same shot type and time of day, the dashboard's button and the
    demonstration script give the same file name exactly when the shot type
    has no space. *)
Theorem button_and_demo_file_names
    (st st' : session_state) (p : string)
    (sc : demo_veo3_builder.SceneConfig) (c : demo_veo3_builder.PromptComponents) :
  current_prompt st !! "prompt" = Some (VStr p) -> p <> "" ->
  auto_generate st = Some st' ->
  demo_veo3_builder.shot_type sc = shot_type (scene_config st) ->
  demo_veo3_builder.time_of_day sc = time_of_day (scene_config st) ->
  file_name_of (current_prompt st')
    = file_name_of (demo_veo3_builder.build_veo3_json sc c)
  <-> has_char " " (shot_type (scene_config st)) = false.
Proof.
  intros Hp Hne Hst' Hshot Htime.
  rewrite (auto_generate_file_name st st' p Hp Hne Hst').
  rewrite FileNames.demo_file_name, Hshot, Htime. split.
  - intros [= Heq]. apply app_cancel_r in Heq. rewrite Heq.
    apply has_char_drop_char.
  - intros Hno. by rewrite (drop_char_absent " " _ Hno).
Qed.

Lemma button_and_demo_file_names_witness :
  exists st' : session_state,
    auto_generate (update_prompt_from_components initialize_session_state) = Some st'
    /\ file_name_of (current_prompt st')
       = file_name_of (demo_veo3_builder.build_veo3_json
                         (demo_veo3_builder.Build_SceneConfig (Finite 85) "medium"
                            "low angle" "dramatic" "day" "rainy")
                         demo_veo3_builder.PromptComponents_default).
Proof.
  eexists. split; [vm_compute; reflexivity|].
  eapply (button_and_demo_file_names
            (update_prompt_from_components initialize_session_state) _
            "Style: cinematic, photorealistic").
  - vm_compute. reflexivity.
  - discriminate.
  - vm_compute. reflexivity.
  - reflexivity.
  - reflexivity.
  - reflexivity.
Defined.

End Dashboard.
